(** * i2c_relays: relay control over I2C for the Grove 4-channel SPDT relay

    A shallow embedding of [i2c_relays.py] (classes [RelayBoard] and [Relay])
    and the properties of its board-state register.

    Python objects live in a heap and are addressed by reference, so that a
    [Relay] shares the [RelayBoard] it was built on.  The two external
    collaborators of the module, the SMBus transport and [time.sleep], are
    modelled by a log of what was requested and an oracle that fixes the
    outcome of every request. *)

From Stdlib Require Import ZArith Floats String.
From stdpp Require Import base option list.

#[local] Open Scope Z_scope.

(** ** Module-level constants *)

Definition RELAY_I2C_ADRESS : Z := 0x11.
Definition RELAY_REGISTER : Z := 0x10.
Definition ALLOWED_IDS : list Z := [1; 2; 3; 4].

(** ** Data *)

(** One [bus.write_byte_data(address, register, value)] request. *)
Record Transaction : Type := {
  t_addr : Z;
  t_reg : Z;
  t_val : Z
}.

(** The exceptions that can travel through the module. *)
Inductive exn : Type :=
| IdNotAllowed (allowed : list Z)
    (* [raise Exception(f"ID not in {self.allowed_ids = }")] *)
| BusError (t : Transaction)
    (* whatever [SMBus(1)] / [write_byte_data] raises for a failed write *)
| ValueError
    (* [time.sleep] refusing a negative or NaN length before it sleeps *)
| SleepError (code : nat).
    (* anything leaving a [time.sleep] of non-negative length: a signal
       handler that raises (KeyboardInterrupt), a length beyond the
       platform's range (OverflowError) *)

(** Instance attributes of a [RelayBoard]. *)
Record RelayBoard : Type := {
  _relay_I2C_adress : Z;
  _relay_I2C_register : Z;
  allowed_ids : list Z;
  persistent : bool;
  state : Z
}.

(** References to [RelayBoard] objects: positions in the heap. *)
Definition loc : Type := nat.

(** Instance attributes of a [Relay]; [relays] is a reference, not a copy. *)
Record Relay : Type := {
  relays : loc;
  id : Z
}.

Record World : Type := {
  heap : list RelayBoard;
    (* the RelayBoard objects allocated so far *)
  bus_log : list Transaction;
    (* write transactions requested so far, oldest first *)
  bus_ok : nat -> Transaction -> bool;
    (* does the n-th requested transaction succeed *)
  sleep_log : list float;
    (* sleeps started so far, oldest first *)
  sleep_raises : nat -> float -> option nat
    (* does the n-th started sleep end with an exception *)
}.

Definition with_heap (h : list RelayBoard) (w : World) : World :=
  {| heap := h; bus_log := bus_log w; bus_ok := bus_ok w;
     sleep_log := sleep_log w; sleep_raises := sleep_raises w |}.

Definition with_bus_log (l : list Transaction) (w : World) : World :=
  {| heap := heap w; bus_log := l; bus_ok := bus_ok w;
     sleep_log := sleep_log w; sleep_raises := sleep_raises w |}.

Definition with_sleep_log (l : list float) (w : World) : World :=
  {| heap := heap w; bus_log := bus_log w; bus_ok := bus_ok w;
     sleep_log := l; sleep_raises := sleep_raises w |}.

Definition with_state (s : Z) (b : RelayBoard) : RelayBoard :=
  {| _relay_I2C_adress := _relay_I2C_adress b;
     _relay_I2C_register := _relay_I2C_register b;
     allowed_ids := allowed_ids b;
     persistent := persistent b;
     state := s |}.

(** ** Python computations: state passing with exceptions *)

Inductive outcome (A : Type) : Type :=
| Return (a : A)
| Raise (e : exn)
| Stuck.
    (* a reference to an object that was never allocated; no Python
       program reaches it *)
Arguments Return {A} a.
Arguments Raise {A} e.
Arguments Stuck {A}.

Definition Py (A : Type) : Type := World -> outcome A * World.

Definition ret {A : Type} (a : A) : Py A := fun w => (Return a, w).

Definition raise {A : Type} (e : exn) : Py A := fun w => (Raise e, w).

Definition bind {A B : Type} (m : Py A) (k : A -> Py B) : Py B :=
  fun w =>
    match m w with
    | (Return a, w') => k a w'
    | (Raise e, w') => (Raise e, w')
    | (Stuck, w') => (Stuck, w')
    end.

Notation "x <- m ;; k" := (bind m (fun x => k))
  (at level 100, m at next level, right associativity).
Notation "m ;; k" := (bind m (fun _ => k))
  (at level 100, right associativity).

(** [for x in xs: body(x)] *)
Fixpoint for_each {A : Type} (xs : list A) (body : A -> Py unit) : Py unit :=
  match xs with
  | [] => ret tt
  | x :: xs' => body x ;; for_each xs' body
  end.

(** [x in xs] on a list of ints: equality against each element in turn. *)
Definition py_in (x : Z) (xs : list Z) : bool := existsb (Z.eqb x) xs.

(** Attribute access through a reference. *)
Definition getattr {A : Type} (self : loc) (field : RelayBoard -> A) : Py A :=
  fun w =>
    match heap w !! self with
    | Some b => (Return (field b), w)
    | None => (Stuck, w)
    end.

Definition setattr_state (self : loc) (s : Z) : Py unit :=
  fun w =>
    match heap w !! self with
    | Some b => (Return tt, with_heap (<[self := with_state s b]> (heap w)) w)
    | None => (Stuck, w)
    end.

Definition alloc (b : RelayBoard) : Py loc :=
  fun w => (Return (length (heap w)), with_heap (heap w ++ [b]) w).

(** ** External collaborators *)

(** [with SMBus(1) as bus: bus.write_byte_data(addr, reg, val)]: the request
    is logged, and the oracle says whether it goes through. *)
Definition smbus_write_byte_data (addr reg val : Z) : Py unit :=
  fun w =>
    let t := {| t_addr := addr; t_reg := reg; t_val := val |} in
    let w' := with_bus_log (bus_log w ++ [t]) w in
    if bus_ok w (length (bus_log w)) t then (Return tt, w')
    else (Raise (BusError t), w').

(** [time.sleep(secs)]: a negative or NaN length is refused at once;
    otherwise the sleep starts and the oracle says how it ends. *)
Definition time_sleep (secs : float) : Py unit :=
  fun w =>
    if (PrimFloat.ltb secs 0 || PrimFloat.is_nan secs)%bool
    then (Raise ValueError, w)
    else
      let w' := with_sleep_log (sleep_log w ++ [secs]) w in
      match sleep_raises w (length (sleep_log w)) secs with
      | None => (Return tt, w')
      | Some code => (Raise (SleepError code), w')
      end.

(** ** class RelayBoard *)

Module RelayBoard.

(** [def set_state(self, state)] *)
Definition set_state (self : loc) (state' : Z) : Py unit :=
  setattr_state self state' ;;
  addr <- getattr self _relay_I2C_adress ;;
  reg <- getattr self _relay_I2C_register ;;
  val <- getattr self state ;;
  smbus_write_byte_data addr reg val.

(** [RelayBoard(initial_state, persistent)]: a new object, whose [state]
    is the class attribute [0b0000] until [__init__] reaches
    [self.set_state(initial_state)]. *)
Definition new (initial_state : Z) (persistent' : bool) : Py loc :=
  self <- alloc {| _relay_I2C_adress := RELAY_I2C_ADRESS;
                   _relay_I2C_register := RELAY_REGISTER;
                   allowed_ids := ALLOWED_IDS;
                   persistent := persistent';
                   state := 0 |} ;;
  set_state self initial_state ;;
  ret self.

(** [def switch(self, id)] *)
Definition switch (self : loc) (id' : Z) : Py unit :=
  allowed <- getattr self allowed_ids ;;
  if negb (py_in id' allowed) then raise (IdNotAllowed allowed)
  else
    s <- getattr self state ;;
    set_state self (Z.lxor s (2 ^ (id' - 1))).

(** [def turn_on(self, id)] *)
Definition turn_on (self : loc) (id' : Z) : Py unit :=
  allowed <- getattr self allowed_ids ;;
  if negb (py_in id' allowed) then raise (IdNotAllowed allowed)
  else
    s <- getattr self state ;;
    set_state self (Z.lor s (2 ^ (id' - 1))).

(** [def turn_off(self, id)]; [~2**(id-1)] is [~(2**(id-1))]. *)
Definition turn_off (self : loc) (id' : Z) : Py unit :=
  allowed <- getattr self allowed_ids ;;
  if negb (py_in id' allowed) then raise (IdNotAllowed allowed)
  else
    s <- getattr self state ;;
    set_state self (Z.land s (Z.lnot (2 ^ (id' - 1)))).

(** [def get_state(self)] *)
Definition get_state (self : loc) : Py Z := getattr self state.

(** [def __str__(self)] *)
Definition __str__ (self : loc) : Py string :=
  s1 <- get_state self ;;
  let state_1 :=
    (if Z.eqb (Z.land s1 (2 ^ (1 - 1))) 0 then "1 is Off" else "1 is On")%string in
  s2 <- get_state self ;;
  let state_2 :=
    (if Z.eqb (Z.land s2 (2 ^ (2 - 1))) 0 then "2 is Off" else "2 is On")%string in
  s3 <- get_state self ;;
  let state_3 :=
    (if Z.eqb (Z.land s3 (2 ^ (3 - 1))) 0 then "3 is Off" else "3 is On")%string in
  s4 <- get_state self ;;
  let state_4 :=
    (if Z.eqb (Z.land s4 (2 ^ (4 - 1))) 0 then "4 is Off" else "4 is On")%string in
  ret (String.append "Relay "
        (String.append state_1 (String.append ", "
          (String.append state_2 (String.append ", "
            (String.append state_3 (String.append ", " state_4))))))).

(** [def kill(self)] *)
Definition kill (self : loc) : Py unit :=
  allowed <- getattr self allowed_ids ;;
  for_each allowed (fun id' => turn_off self id').

(** [def __del__(self)] *)
Definition __del__ (self : loc) : Py unit :=
  p <- getattr self persistent ;;
  if negb p then kill self else ret tt.

(** [def __enter__(self)] *)
Definition __enter__ (self : loc) : Py loc := ret self.

(** [def __exit__(self, exc_type, exc_value, exc_traceback)] *)
Definition __exit__ (self : loc) : Py unit := __del__ self.

End RelayBoard.

(** ** class Relay *)

Module Relay.

(** [def on(self)] *)
Definition on (self : Relay) : Py unit :=
  RelayBoard.turn_on (relays self) (id self).

(** [def off(self)] *)
Definition off (self : Relay) : Py unit :=
  RelayBoard.turn_off (relays self) (id self).

(** [Relay(relay, id, initially_on)] *)
Definition new (relay : loc) (id' : Z) (initially_on : bool) : Py Relay :=
  allowed <- getattr relay allowed_ids ;;
  if negb (py_in id' allowed) then raise (IdNotAllowed allowed)
  else
    let self := {| relays := relay; id := id' |} in
    if initially_on then on self ;; ret self else ret self.

(** [def cycle(self, duration)] *)
Definition cycle (self : Relay) (duration : float) : Py unit :=
  on self ;;
  time_sleep duration ;;
  off self.

(** [def toggle(self)] *)
Definition toggle (self : Relay) : Py unit :=
  RelayBoard.switch (relays self) (id self).

(** [def get_state(self)] *)
Definition get_state (self : Relay) : Py string :=
  s <- RelayBoard.get_state (relays self) ;;
  ret (if Z.eqb (Z.land s (2 ^ (id self - 1))) 0 then "Off" else "On")%string.

End Relay.

(** ** Vocabulary of the statements *)

(** The attributes [__init__] sets and nothing changes afterwards. *)
Definition wf_board (b : RelayBoard) : Prop :=
  _relay_I2C_adress b = RELAY_I2C_ADRESS /\
  _relay_I2C_register b = RELAY_REGISTER /\
  allowed_ids b = ALLOWED_IDS.

(** The transaction by which board [b] sends mask [m]. *)
Definition write_of (b : RelayBoard) (m : Z) : Transaction :=
  {| t_addr := _relay_I2C_adress b; t_reg := _relay_I2C_register b; t_val := m |}.

(** The transaction that carries mask [m] to the relay board's register. *)
Definition relay_write (m : Z) : Transaction :=
  {| t_addr := RELAY_I2C_ADRESS; t_reg := RELAY_REGISTER; t_val := m |}.

(** What the next requested transaction, if it is [t], comes back with. *)
Definition write_outcome (w : World) (t : Transaction) : outcome unit :=
  if bus_ok w (length (bus_log w)) t then Return tt else Raise (BusError t).

(** The world once the board at [self], found as [b], has stored and sent [m]. *)
Definition written (w : World) (self : loc) (b : RelayBoard) (m : Z) : World :=
  with_bus_log (bus_log w ++ [write_of b m])
    (with_heap (<[self := with_state m b]> (heap w)) w).

(** A bus on which every write goes through. *)
Definition reliable_bus (w : World) : Prop :=
  forall n t, bus_ok w n t = true.

(** The mask a board holds, as [get_state] reports it. *)
Definition mask_of (w : World) (self : loc) : outcome Z :=
  fst (RelayBoard.get_state self w).

Definition in_range (m : Z) : Prop := 0 <= m <= 15.

(** A world to run examples in: no object yet, nothing logged, every write
    answered by [ok] and every sleep by [nap]. *)
Definition empty_world (ok : nat -> Transaction -> bool)
    (nap : nat -> float -> option nat) : World :=
  {| heap := []; bus_log := []; bus_ok := ok;
     sleep_log := []; sleep_raises := nap |}.

Definition always_ok : nat -> Transaction -> bool := fun _ _ => true.
Definition never_ok : nat -> Transaction -> bool := fun _ _ => false.
Definition fails_at (k : nat) : nat -> Transaction -> bool :=
  fun n _ => negb (Nat.eqb n k).
Definition sound_sleep : nat -> float -> option nat := fun _ _ => None.
Definition interrupted_sleep : nat -> float -> option nat := fun _ _ => Some O.

(** A world holding one board with mask [m], as [__init__] leaves it. *)
Definition one_board (m : Z) (ok : nat -> Transaction -> bool)
    (nap : nat -> float -> option nat) : World :=
  snd (RelayBoard.new m true (empty_world ok nap)).

(** Masks [m] and [m'] agree on every bit but bit [k]. *)
Definition same_bits_except (k : Z) (m m' : Z) : Prop :=
  forall j, j <> k -> Z.testbit m' j = Z.testbit m j.

(** The masks [kill] sends when it starts from mask [s] and walks [ids]. *)
Fixpoint kill_masks (s : Z) (ids : list Z) : list Z :=
  match ids with
  | [] => []
  | c :: ids' =>
      let s' := Z.land s (Z.lnot (2 ^ (c - 1))) in
      s' :: kill_masks s' ids'
  end.

(** [RelayBoard()] with its defaults, a [Relay] on channel [c] of it, one
    [cycle], and a look at the relay. *)
Definition cycle_on_fresh_board (c : Z) (duration : float) : Py string :=
  board <- RelayBoard.new 0 false ;;
  r <- Relay.new board c false ;;
  Relay.cycle r duration ;;
  Relay.get_state r.

(** The calls a client can make on boards and relays. *)
Inductive op : Type :=
| Op_RelayBoard (initial_state : Z) (persistent' : bool)
| Op_set_state (self : loc) (state' : Z)
| Op_switch (self : loc) (id' : Z)
| Op_turn_on (self : loc) (id' : Z)
| Op_turn_off (self : loc) (id' : Z)
| Op_get_state (self : loc)
| Op_kill (self : loc)
| Op_del (self : loc)
| Op_enter (self : loc)
| Op_exit (self : loc)
| Op_Relay (relay : loc) (id' : Z) (initially_on : bool)
| Op_on (r : Relay)
| Op_off (r : Relay)
| Op_cycle (r : Relay) (duration : float)
| Op_toggle (r : Relay)
| Op_relay_get_state (r : Relay).

(** The world after a call, whether it returned or raised. *)
Definition after {A : Type} (m : Py A) (w : World) : World := snd (m w).

Definition run_op (o : op) : World -> World :=
  match o with
  | Op_RelayBoard m p => after (RelayBoard.new m p)
  | Op_set_state self m => after (RelayBoard.set_state self m)
  | Op_switch self c => after (RelayBoard.switch self c)
  | Op_turn_on self c => after (RelayBoard.turn_on self c)
  | Op_turn_off self c => after (RelayBoard.turn_off self c)
  | Op_get_state self => after (RelayBoard.get_state self)
  | Op_kill self => after (RelayBoard.kill self)
  | Op_del self => after (RelayBoard.__del__ self)
  | Op_enter self => after (RelayBoard.__enter__ self)
  | Op_exit self => after (RelayBoard.__exit__ self)
  | Op_Relay relay c on => after (Relay.new relay c on)
  | Op_on r => after (Relay.on r)
  | Op_off r => after (Relay.off r)
  | Op_cycle r d => after (Relay.cycle r d)
  | Op_toggle r => after (Relay.toggle r)
  | Op_relay_get_state r => after (Relay.get_state r)
  end.

(** A client program: calls in sequence, going on after a call that raised. *)
Definition run_ops (ops : list op) (w : World) : World :=
  fold_left (fun w' o => run_op o w') ops w.

(** The calls that take a raw mask are given one of 0b0000-0b1111. *)
Definition mask_arg_in_range (o : op) : Prop :=
  match o with
  | Op_RelayBoard m _ => in_range m
  | Op_set_state _ m => in_range m
  | _ => True
  end.

(** Every board is as [__init__] set it up and holds a 4-bit mask. *)
Definition registers_in_range (w : World) : Prop :=
  Forall (fun b => wf_board b /\ in_range (state b)) (heap w).

(** A computation that keeps [registers_in_range], however it ends. *)
Definition preserves {A : Type} (m : Py A) : Prop :=
  forall w, registers_in_range w -> registers_in_range (after m w).


(** ** Callers: the with-statement and the command line *)

(** [with ctx as r: body(r)] over a [RelayBoard]: [__enter__], the body, and
    [__exit__] on the way out, also when the body raised; [__exit__] returns
    [None], so the body's exception is raised again after it. *)
Definition with_as {A : Type} (ctx : Py loc) (body : loc -> Py A) : Py A :=
  mgr <- ctx ;;
  r <- RelayBoard.__enter__ mgr ;;
  fun w =>
    match body r w with
    | (Return a, w') => (RelayBoard.__exit__ mgr ;; ret a) w'
    | (Raise e, w') => (RelayBoard.__exit__ mgr ;; raise e) w'
    | (Stuck, w') => (Stuck, w')
    end.

(** A call as a statement: the value it returns is dropped. *)
Definition call (o : op) : Py unit :=
  match o with
  | Op_RelayBoard m p => RelayBoard.new m p ;; ret tt
  | Op_set_state self m => RelayBoard.set_state self m
  | Op_switch self c => RelayBoard.switch self c
  | Op_turn_on self c => RelayBoard.turn_on self c
  | Op_turn_off self c => RelayBoard.turn_off self c
  | Op_get_state self => RelayBoard.get_state self ;; ret tt
  | Op_kill self => RelayBoard.kill self
  | Op_del self => RelayBoard.__del__ self
  | Op_enter self => RelayBoard.__enter__ self ;; ret tt
  | Op_exit self => RelayBoard.__exit__ self
  | Op_Relay relay c on => Relay.new relay c on ;; ret tt
  | Op_on r => Relay.on r
  | Op_off r => Relay.off r
  | Op_cycle r d => Relay.cycle r d
  | Op_toggle r => Relay.toggle r
  | Op_relay_get_state r => Relay.get_state r ;; ret tt
  end.

(** A block of statements: the first call that raises ends it. *)
Definition block (ops : list op) : Py unit := for_each ops call.

(** The [if args.relays:] branch of [main]: a persistent board, and for each
    id given on the command line a [Relay] that is toggled. *)
Definition main_relays (ids : list Z) : Py unit :=
  r <- RelayBoard.new 0 true ;;
  for_each ids (fun id' => rel <- Relay.new r id' false ;; Relay.toggle rel).

(** The masks a run of toggles sends when it starts from [s] and walks [ids]. *)
Fixpoint switch_masks (s : Z) (ids : list Z) : list Z :=
  match ids with
  | [] => []
  | c :: ids' =>
      let s' := Z.lxor s (2 ^ (c - 1)) in
      s' :: switch_masks s' ids'
  end.

(** The mask with the bit of every id in [ids] flipped, one after the other. *)
Definition toggled (ids : list Z) (s : Z) : Z :=
  fold_left (fun s' c => Z.lxor s' (2 ^ (c - 1))) ids s.

(** What [__str__] prints for mask [s]. *)
Definition rendering (s : Z) : string :=
  let part (n : string) (k : Z) :=
    String.append n (if Z.eqb (Z.land s (2 ^ k)) 0 then " is Off" else " is On")%string in
  String.append "Relay "
    (String.append (part "1"%string 0) (String.append ", "
      (String.append (part "2"%string 1) (String.append ", "
        (String.append (part "3"%string 2) (String.append ", " (part "4"%string 3))))))).

(** What a [Relay] on channel [c] reads when the mask is [s]. *)
Definition reading (s c : Z) : string :=
  (if Z.eqb (Z.land s (2 ^ (c - 1))) 0 then "Off" else "On")%string.

(** Every transaction requested so far went to the relay board's register. *)
Definition bus_targets_relay_register (w : World) : Prop :=
  Forall (fun t => t_addr t = RELAY_I2C_ADRESS /\ t_reg t = RELAY_REGISTER) (bus_log w).

(** Every board is as [__init__] set it up. *)
Definition boards_wf (w : World) : Prop := Forall wf_board (heap w).

(** A world with a single board, whose stored mask is the value of the
    transaction requested last. *)
Definition mirrors_last_write (w : World) : Prop :=
  exists b, heap w = [b] /\ wf_board b /\
            last (bus_log w) = Some (relay_write (state b)).

(** A call other than a constructor call of [RelayBoard]. *)
Definition no_constructor (o : op) : Prop :=
  match o with
  | Op_RelayBoard _ _ => False
  | _ => True
  end.

(** A computation that keeps [P], however it ends. *)
Definition keeps (P : World -> Prop) {A : Type} (m : Py A) : Prop :=
  forall w, P w -> P (after m w).

(** ** Evaluation lemmas *)

Lemma py_in_allowed (c : Z) : py_in c ALLOWED_IDS = true <-> 1 <= c <= 4.
Proof.
  unfold py_in, ALLOWED_IDS; simpl.
  rewrite !orb_true_iff, !Z.eqb_eq. lia.
Qed.

Lemma py_in_not_allowed (c : Z) : ~ (1 <= c <= 4) -> py_in c ALLOWED_IDS = false.
Proof.
  intros H. destruct (py_in c ALLOWED_IDS) eqn:E; [|reflexivity].
  apply py_in_allowed in E. contradiction.
Qed.

Lemma set_state_eq (w : World) (self : loc) (b : RelayBoard) (m : Z) :
  heap w !! self = Some b ->
  RelayBoard.set_state self m w = (write_outcome w (write_of b m), written w self b m).
Proof.
  intros Hb. pose proof (lookup_lt_Some _ _ _ Hb) as Hlt.
  unfold RelayBoard.set_state, bind, setattr_state, getattr. rewrite Hb. simpl.
  repeat (rewrite list_lookup_insert_eq by exact Hlt; simpl).
  unfold smbus_write_byte_data, write_outcome, written, write_of. simpl.
  destruct (bus_ok w _ _); reflexivity.
Qed.

Lemma written_lookup (w : World) (self : loc) (b : RelayBoard) (m : Z) :
  heap w !! self = Some b ->
  heap (written w self b m) !! self = Some (with_state m b).
Proof.
  intros Hb. unfold written; simpl.
  apply list_lookup_insert_eq. exact (lookup_lt_Some _ _ _ Hb).
Qed.

Lemma switch_eq (w : World) (self : loc) (b : RelayBoard) (c : Z) :
  heap w !! self = Some b ->
  RelayBoard.switch self c w =
  if py_in c (allowed_ids b)
  then RelayBoard.set_state self (Z.lxor (state b) (2 ^ (c - 1))) w
  else (Raise (IdNotAllowed (allowed_ids b)), w).
Proof.
  intros Hb. unfold RelayBoard.switch, bind, getattr at 1. rewrite Hb.
  destruct (py_in c (allowed_ids b)); simpl; [|reflexivity].
  unfold getattr. rewrite Hb. reflexivity.
Qed.

Lemma turn_on_eq (w : World) (self : loc) (b : RelayBoard) (c : Z) :
  heap w !! self = Some b ->
  RelayBoard.turn_on self c w =
  if py_in c (allowed_ids b)
  then RelayBoard.set_state self (Z.lor (state b) (2 ^ (c - 1))) w
  else (Raise (IdNotAllowed (allowed_ids b)), w).
Proof.
  intros Hb. unfold RelayBoard.turn_on, bind, getattr at 1. rewrite Hb.
  destruct (py_in c (allowed_ids b)); simpl; [|reflexivity].
  unfold getattr. rewrite Hb. reflexivity.
Qed.

Lemma turn_off_eq (w : World) (self : loc) (b : RelayBoard) (c : Z) :
  heap w !! self = Some b ->
  RelayBoard.turn_off self c w =
  if py_in c (allowed_ids b)
  then RelayBoard.set_state self (Z.land (state b) (Z.lnot (2 ^ (c - 1)))) w
  else (Raise (IdNotAllowed (allowed_ids b)), w).
Proof.
  intros Hb. unfold RelayBoard.turn_off, bind, getattr at 1. rewrite Hb.
  destruct (py_in c (allowed_ids b)); simpl; [|reflexivity].
  unfold getattr. rewrite Hb. reflexivity.
Qed.

Lemma mask_of_eq (w : World) (self : loc) (b : RelayBoard) :
  heap w !! self = Some b -> mask_of w self = Return (state b).
Proof.
  intros Hb. unfold mask_of, RelayBoard.get_state, getattr. rewrite Hb. reflexivity.
Qed.

Lemma wf_with_state (m : Z) (b : RelayBoard) : wf_board b -> wf_board (with_state m b).
Proof. intros H. exact H. Qed.

Lemma write_of_wf (b : RelayBoard) (m : Z) : wf_board b -> write_of b m = relay_write m.
Proof. intros (Ha & Hr & _). unfold write_of, relay_write. rewrite Ha, Hr. reflexivity. Qed.

Lemma write_outcome_reliable (w : World) (t : Transaction) :
  reliable_bus w -> write_outcome w t = Return tt.
Proof. intros H. unfold write_outcome. rewrite H. reflexivity. Qed.

Lemma written_reliable (w : World) (self : loc) (b : RelayBoard) (m : Z) :
  reliable_bus w -> reliable_bus (written w self b m).
Proof. intros H n t. exact (H n t). Qed.

Lemma switch_valid (w : World) (self : loc) (b : RelayBoard) (c : Z) :
  heap w !! self = Some b -> wf_board b -> 1 <= c <= 4 ->
  RelayBoard.switch self c w =
  (write_outcome w (relay_write (Z.lxor (state b) (2 ^ (c - 1)))),
   written w self b (Z.lxor (state b) (2 ^ (c - 1)))).
Proof.
  intros Hb Hwf Hc. rewrite (switch_eq _ _ _ _ Hb).
  destruct Hwf as (Ha & Hr & Hal). rewrite Hal.
  rewrite (proj2 (py_in_allowed c) Hc), (set_state_eq _ _ _ _ Hb).
  rewrite write_of_wf by (repeat split; assumption). reflexivity.
Qed.

Lemma turn_on_valid (w : World) (self : loc) (b : RelayBoard) (c : Z) :
  heap w !! self = Some b -> wf_board b -> 1 <= c <= 4 ->
  RelayBoard.turn_on self c w =
  (write_outcome w (relay_write (Z.lor (state b) (2 ^ (c - 1)))),
   written w self b (Z.lor (state b) (2 ^ (c - 1)))).
Proof.
  intros Hb Hwf Hc. rewrite (turn_on_eq _ _ _ _ Hb).
  destruct Hwf as (Ha & Hr & Hal). rewrite Hal.
  rewrite (proj2 (py_in_allowed c) Hc), (set_state_eq _ _ _ _ Hb).
  rewrite write_of_wf by (repeat split; assumption). reflexivity.
Qed.

Lemma turn_off_valid (w : World) (self : loc) (b : RelayBoard) (c : Z) :
  heap w !! self = Some b -> wf_board b -> 1 <= c <= 4 ->
  RelayBoard.turn_off self c w =
  (write_outcome w (relay_write (Z.land (state b) (Z.lnot (2 ^ (c - 1))))),
   written w self b (Z.land (state b) (Z.lnot (2 ^ (c - 1))))).
Proof.
  intros Hb Hwf Hc. rewrite (turn_off_eq _ _ _ _ Hb).
  destruct Hwf as (Ha & Hr & Hal). rewrite Hal.
  rewrite (proj2 (py_in_allowed c) Hc), (set_state_eq _ _ _ _ Hb).
  rewrite write_of_wf by (repeat split; assumption). reflexivity.
Qed.

Lemma mask_of_written (w : World) (self : loc) (b : RelayBoard) (m : Z) :
  heap w !! self = Some b -> mask_of (written w self b m) self = Return m.
Proof.
  intros Hb. rewrite (mask_of_eq _ _ _ (written_lookup _ _ _ m Hb)). reflexivity.
Qed.

(** A board to apply the statements to: the one [one_board m] holds. *)
Lemma one_board_lookup (m : Z) (ok : nat -> Transaction -> bool)
    (nap : nat -> float -> option nat) :
  heap (one_board m ok nap) !! 0%nat =
  Some {| _relay_I2C_adress := RELAY_I2C_ADRESS;
          _relay_I2C_register := RELAY_REGISTER;
          allowed_ids := ALLOWED_IDS; persistent := true; state := m |}.
Proof.
  unfold one_board, RelayBoard.new, bind, alloc. simpl.
  rewrite (set_state_eq _ 0%nat _ m) by reflexivity.
  destruct (write_outcome _ _); reflexivity.
Qed.

(** ** Round trip, involution, idempotence *)

(** C7: for every mask m in 0..15, on a bus whose writes always succeed,
    [set_state(m)] followed by [get_state()] returns m. *)
Theorem set_state_get_state_roundtrip (w : World) (self : loc) (b : RelayBoard) (m : Z) :
  heap w !! self = Some b ->
  reliable_bus w ->
  in_range m ->
  (RelayBoard.set_state self m ;; RelayBoard.get_state self) w =
  (Return m, written w self b m).
Proof.
  intros Hb Hbus _. unfold bind.
  rewrite (set_state_eq _ _ _ _ Hb), (write_outcome_reliable _ _ Hbus).
  unfold RelayBoard.get_state, getattr.
  rewrite (written_lookup _ _ _ _ Hb). reflexivity.
Qed.

Lemma set_state_get_state_roundtrip_witness :
  fst ((RelayBoard.set_state 0%nat 9 ;; RelayBoard.get_state 0%nat)
         (one_board 0 always_ok sound_sleep)) = Return 9.
Proof.
  rewrite (set_state_get_state_roundtrip _ 0%nat _ 9
             (one_board_lookup 0 always_ok sound_sleep)).
  - reflexivity.
  - intros n t. reflexivity.
  - unfold in_range. lia.
Defined.

(** C8: for every channel id c in 1..4 and every starting mask in 0..15, on
    a bus whose writes always succeed, [switch(c)] twice returns and leaves
    the mask as it was. *)
Theorem switch_twice_restores_mask (w : World) (self : loc) (b : RelayBoard) (c : Z) :
  heap w !! self = Some b ->
  wf_board b ->
  reliable_bus w ->
  in_range (state b) ->
  1 <= c <= 4 ->
  fst ((RelayBoard.switch self c ;; RelayBoard.switch self c) w) = Return tt /\
  mask_of (after (RelayBoard.switch self c ;; RelayBoard.switch self c) w) self =
  mask_of w self.
Proof.
  intros Hb Hwf Hbus _ Hc. unfold after, bind.
  rewrite (switch_valid _ _ _ _ Hb Hwf Hc), (write_outcome_reliable _ _ Hbus).
  pose proof (written_lookup _ _ _ (Z.lxor (state b) (2 ^ (c - 1))) Hb) as Hb'.
  rewrite (switch_valid _ _ _ _ Hb' (wf_with_state _ _ Hwf) Hc).
  rewrite (write_outcome_reliable _ _ (written_reliable _ _ _ _ Hbus)).
  split; [reflexivity|]. simpl fst; simpl snd.
  rewrite (mask_of_written _ _ _ _ Hb'), (mask_of_eq _ _ _ Hb). simpl.
  rewrite Z.lxor_assoc, Z.lxor_nilpotent, Z.lxor_0_r. reflexivity.
Qed.

Lemma switch_twice_restores_mask_witness :
  mask_of (after (RelayBoard.switch 0%nat 3 ;; RelayBoard.switch 0%nat 3)
             (one_board 6 always_ok sound_sleep)) 0%nat =
  mask_of (one_board 6 always_ok sound_sleep) 0%nat.
Proof.
  refine (proj2 (switch_twice_restores_mask _ 0%nat _ 3
                   (one_board_lookup 6 always_ok sound_sleep) _ _ _ _)).
  - repeat split.
  - intros n t. reflexivity.
  - unfold in_range. simpl. lia.
  - lia.
Defined.

(** C9: for every channel id c in 1..4 and every starting mask in 0..15, on
    a bus whose writes always succeed, [turn_on(c)] twice returns and leaves
    the mask that a single [turn_on(c)] leaves. *)
Theorem turn_on_idempotent (w : World) (self : loc) (b : RelayBoard) (c : Z) :
  heap w !! self = Some b ->
  wf_board b ->
  reliable_bus w ->
  in_range (state b) ->
  1 <= c <= 4 ->
  fst (RelayBoard.turn_on self c w) = Return tt /\
  fst ((RelayBoard.turn_on self c ;; RelayBoard.turn_on self c) w) = Return tt /\
  mask_of (after (RelayBoard.turn_on self c ;; RelayBoard.turn_on self c) w) self =
  mask_of (after (RelayBoard.turn_on self c) w) self.
Proof.
  intros Hb Hwf Hbus _ Hc. unfold after, bind.
  rewrite (turn_on_valid _ _ _ _ Hb Hwf Hc), (write_outcome_reliable _ _ Hbus).
  pose proof (written_lookup _ _ _ (Z.lor (state b) (2 ^ (c - 1))) Hb) as Hb'.
  rewrite (turn_on_valid _ _ _ _ Hb' (wf_with_state _ _ Hwf) Hc).
  rewrite (write_outcome_reliable _ _ (written_reliable _ _ _ _ Hbus)).
  split; [reflexivity|]. split; [reflexivity|]. simpl fst; simpl snd.
  rewrite (mask_of_written _ _ _ _ Hb'), (mask_of_written _ _ _ _ Hb). simpl.
  rewrite <- Z.lor_assoc, Z.lor_diag. reflexivity.
Qed.

Lemma turn_on_idempotent_witness :
  mask_of (after (RelayBoard.turn_on 0%nat 2 ;; RelayBoard.turn_on 0%nat 2)
             (one_board 5 always_ok sound_sleep)) 0%nat =
  mask_of (after (RelayBoard.turn_on 0%nat 2) (one_board 5 always_ok sound_sleep)) 0%nat.
Proof.
  refine (proj2 (proj2 (turn_on_idempotent _ 0%nat _ 2
                   (one_board_lookup 5 always_ok sound_sleep) _ _ _ _))).
  - repeat split.
  - intros n t. reflexivity.
  - unfold in_range. simpl. lia.
  - lia.
Defined.

(** ** Frame: one channel, one bit *)

Lemma lor_bit_frame (m k : Z) : 0 <= k -> same_bits_except k m (Z.lor m (2 ^ k)).
Proof.
  intros Hk j Hj. destruct (Z.neg_nonneg_cases j) as [Hneg | Hpos].
  - rewrite !Z.testbit_neg_r by exact Hneg. reflexivity.
  - rewrite Z.lor_spec, (Z.pow2_bits_eqb k j Hk).
    rewrite (proj2 (Z.eqb_neq k j)) by congruence. apply orb_false_r.
Qed.

Lemma land_lnot_bit_frame (m k : Z) :
  0 <= k -> same_bits_except k m (Z.land m (Z.lnot (2 ^ k))).
Proof.
  intros Hk j Hj. destruct (Z.neg_nonneg_cases j) as [Hneg | Hpos].
  - rewrite !Z.testbit_neg_r by exact Hneg. reflexivity.
  - rewrite Z.land_spec, (Z.lnot_spec _ j Hpos), (Z.pow2_bits_eqb k j Hk).
    rewrite (proj2 (Z.eqb_neq k j)) by congruence. apply andb_true_r.
Qed.

Lemma lxor_bit_frame (m k : Z) : 0 <= k -> same_bits_except k m (Z.lxor m (2 ^ k)).
Proof.
  intros Hk j Hj. destruct (Z.neg_nonneg_cases j) as [Hneg | Hpos].
  - rewrite !Z.testbit_neg_r by exact Hneg. reflexivity.
  - rewrite Z.lxor_spec, (Z.pow2_bits_eqb k j Hk).
    rewrite (proj2 (Z.eqb_neq k j)) by congruence. apply xorb_false_r.
Qed.

(** C10: for every mask in 0..15 and every channel id c in 1..4, each of
    [turn_on(c)], [turn_off(c)] and [switch(c)] leaves a mask that differs
    from the one before in bit c-1 at most; this holds whether or not the
    bus write goes through. *)
Theorem channel_ops_touch_one_bit (w : World) (self : loc) (b : RelayBoard) (c : Z) :
  heap w !! self = Some b ->
  wf_board b ->
  in_range (state b) ->
  1 <= c <= 4 ->
  (exists m', mask_of (after (RelayBoard.turn_on self c) w) self = Return m' /\
              same_bits_except (c - 1) (state b) m') /\
  (exists m', mask_of (after (RelayBoard.turn_off self c) w) self = Return m' /\
              same_bits_except (c - 1) (state b) m') /\
  (exists m', mask_of (after (RelayBoard.switch self c) w) self = Return m' /\
              same_bits_except (c - 1) (state b) m').
Proof.
  intros Hb Hwf _ Hc. unfold after.
  rewrite (turn_on_valid _ _ _ _ Hb Hwf Hc), (turn_off_valid _ _ _ _ Hb Hwf Hc),
    (switch_valid _ _ _ _ Hb Hwf Hc). simpl snd.
  rewrite !(mask_of_written _ _ _ _ Hb).
  assert (0 <= c - 1) as Hk by lia.
  split; [|split]; eexists; (split; [reflexivity|]).
  - exact (lor_bit_frame _ _ Hk).
  - exact (land_lnot_bit_frame _ _ Hk).
  - exact (lxor_bit_frame _ _ Hk).
Qed.

Lemma channel_ops_touch_one_bit_witness :
  exists m', mask_of (after (RelayBoard.switch 0%nat 4) (one_board 10 never_ok sound_sleep))
               0%nat = Return m' /\
             same_bits_except 3 10 m'.
Proof.
  refine (proj2 (proj2 (channel_ops_touch_one_bit _ 0%nat _ 4
                   (one_board_lookup 10 never_ok sound_sleep) _ _ _))).
  - repeat split.
  - unfold in_range. simpl. lia.
  - lia.
Defined.

(** ** Channel ids are checked before the bus is touched *)

(** C6: for every channel id outside 1..4, [turn_on], [turn_off] and
    [switch] raise the id exception and leave the world as it was: no
    transaction is requested and [get_state()] reports the same mask. *)
Theorem invalid_id_rejected_before_bus (w : World) (self : loc) (b : RelayBoard) (c : Z) :
  heap w !! self = Some b ->
  wf_board b ->
  ~ (1 <= c <= 4) ->
  RelayBoard.turn_on self c w = (Raise (IdNotAllowed ALLOWED_IDS), w) /\
  RelayBoard.turn_off self c w = (Raise (IdNotAllowed ALLOWED_IDS), w) /\
  RelayBoard.switch self c w = (Raise (IdNotAllowed ALLOWED_IDS), w) /\
  (forall f, In f [RelayBoard.turn_on; RelayBoard.turn_off; RelayBoard.switch] ->
     bus_log (after (f self c) w) = bus_log w /\
     mask_of (after (f self c) w) self = mask_of w self).
Proof.
  intros Hb (Ha & Hr & Hal) Hc.
  assert (RelayBoard.turn_on self c w = (Raise (IdNotAllowed ALLOWED_IDS), w)) as H1.
  { rewrite (turn_on_eq _ _ _ _ Hb), Hal, (py_in_not_allowed _ Hc). reflexivity. }
  assert (RelayBoard.turn_off self c w = (Raise (IdNotAllowed ALLOWED_IDS), w)) as H2.
  { rewrite (turn_off_eq _ _ _ _ Hb), Hal, (py_in_not_allowed _ Hc). reflexivity. }
  assert (RelayBoard.switch self c w = (Raise (IdNotAllowed ALLOWED_IDS), w)) as H3.
  { rewrite (switch_eq _ _ _ _ Hb), Hal, (py_in_not_allowed _ Hc). reflexivity. }
  repeat split; try assumption;
    destruct H as [<- | [<- | [<- | []]]]; unfold after;
    rewrite ?H1, ?H2, ?H3; reflexivity.
Qed.

Lemma invalid_id_rejected_before_bus_witness :
  RelayBoard.turn_on 0%nat 5 (one_board 3 always_ok sound_sleep) =
    (Raise (IdNotAllowed ALLOWED_IDS), one_board 3 always_ok sound_sleep) /\
  RelayBoard.switch 0%nat 0 (one_board 3 always_ok sound_sleep) =
    (Raise (IdNotAllowed ALLOWED_IDS), one_board 3 always_ok sound_sleep).
Proof.
  split.
  - refine (proj1 (invalid_id_rejected_before_bus _ 0%nat _ 5
                     (one_board_lookup 3 always_ok sound_sleep) _ _)).
    + repeat split.
    + lia.
  - refine (proj1 (proj2 (proj2 (invalid_id_rejected_before_bus _ 0%nat _ 0
                     (one_board_lookup 3 always_ok sound_sleep) _ _)))).
    + repeat split.
    + lia.
Defined.

(** ** The write path: [set_state] and the constructor *)

(** C1, as the code has it: [set_state(m)] stores m first and then requests
    the one write of m; when that write fails the bus exception leaves the
    call and [get_state()] reports m all the same. *)
Theorem set_state_stores_then_writes (w : World) (self : loc) (b : RelayBoard) (m : Z) :
  heap w !! self = Some b ->
  wf_board b ->
  bus_log (after (RelayBoard.set_state self m) w) = bus_log w ++ [relay_write m] /\
  mask_of (after (RelayBoard.set_state self m) w) self = Return m /\
  (bus_ok w (length (bus_log w)) (relay_write m) = true ->
   fst (RelayBoard.set_state self m w) = Return tt) /\
  (bus_ok w (length (bus_log w)) (relay_write m) = false ->
   fst (RelayBoard.set_state self m w) = Raise (BusError (relay_write m))).
Proof.
  intros Hb Hwf. unfold after.
  rewrite (set_state_eq _ _ _ _ Hb), (write_of_wf _ _ Hwf). simpl fst; simpl snd.
  split; [|split; [|split]].
  - unfold written. simpl. rewrite (write_of_wf _ _ Hwf). reflexivity.
  - exact (mask_of_written _ _ _ _ Hb).
  - intros Hok. unfold write_outcome. rewrite Hok. reflexivity.
  - intros Hko. unfold write_outcome. rewrite Hko. reflexivity.
Qed.

Lemma set_state_stores_then_writes_witness :
  mask_of (after (RelayBoard.set_state 0%nat 5) (one_board 0 (fails_at 1) sound_sleep))
    0%nat = Return 5.
Proof.
  refine (proj1 (proj2 (set_state_stores_then_writes _ 0%nat _ 5
                   (one_board_lookup 0 (fails_at 1) sound_sleep) _))).
  repeat split.
Defined.

(** C1 as stated does not hold: on a board holding 0b0000 whose next bus
    write fails, [set_state(0b0101)] raises the bus exception and
    [get_state()] then reports 0b0101, not 0b0000. *)
Lemma set_state_failed_write_counterexample :
  let w := one_board 0 (fails_at 1) sound_sleep in
  let w' := after (RelayBoard.set_state 0%nat 5) w in
  bus_ok w (length (bus_log w)) (relay_write 5) = false /\
  fst (RelayBoard.set_state 0%nat 5 w) = Raise (BusError (relay_write 5)) /\
  mask_of w 0%nat = Return 0 /\
  mask_of w' 0%nat = Return 5 /\
  mask_of w' 0%nat <> mask_of w 0%nat.
Proof.
  vm_compute. repeat split; try reflexivity. discriminate.
Qed.

(** C4, as the code has it: the constructor checks no range; for every
    [initial_state], inside 0..15 or not, it stores it and requests exactly
    one write of it, returns the new board when the write goes through and
    raises the bus exception when it does not. *)
Theorem new_writes_initial_state_unchecked (w : World) (m : Z) (p : bool) :
  bus_log (after (RelayBoard.new m p) w) = bus_log w ++ [relay_write m] /\
  mask_of (after (RelayBoard.new m p) w) (length (heap w)) = Return m /\
  fst (RelayBoard.new m p w) =
    if bus_ok w (length (bus_log w)) (relay_write m)
    then Return (length (heap w))
    else Raise (BusError (relay_write m)).
Proof.
  unfold after, RelayBoard.new, bind, alloc.
  set (b := {| _relay_I2C_adress := RELAY_I2C_ADRESS;
               _relay_I2C_register := RELAY_REGISTER;
               allowed_ids := ALLOWED_IDS; persistent := p; state := 0 |}).
  assert (heap (with_heap (heap w ++ [b]) w) !! length (heap w) = Some b) as Hb.
  { simpl. apply list_lookup_middle. reflexivity. }
  rewrite (set_state_eq _ _ _ m Hb).
  assert (write_of b m = relay_write m) as -> by reflexivity.
  unfold write_outcome. simpl bus_ok. simpl bus_log at 1 3 5.
  destruct (bus_ok w (length (bus_log w)) (relay_write m)); simpl fst; simpl snd;
    (split; [reflexivity|]); (split; [|reflexivity]);
    exact (mask_of_written _ _ _ _ Hb).
Qed.

(** C4 as stated does not hold: [RelayBoard(16)] raises nothing; it returns
    a board holding 16 after one write of 16. *)
Lemma new_out_of_range_counterexample :
  let w := empty_world always_ok sound_sleep in
  ~ in_range 16 /\
  fst (RelayBoard.new 16 false w) = Return 0%nat /\
  bus_log (after (RelayBoard.new 16 false) w) = [relay_write 16] /\
  mask_of (after (RelayBoard.new 16 false) w) 0%nat = Return 16.
Proof.
  vm_compute. repeat split; try reflexivity. intros [_ H]. apply H. reflexivity.
Qed.

(** ** [kill]: one write per channel, until a write fails *)

Lemma last_nonempty_default {A : Type} (l : list A) :
  forall (x d d' : A), List.last (x :: l) d = List.last (x :: l) d'.
Proof.
  induction l as [|y l IH]; intros x d d'; [reflexivity|].
  change (List.last (y :: l) d = List.last (y :: l) d'). apply IH.
Qed.

Section KillLoop.

Variable self : loc.

Lemma for_each_turn_off_all_ok (ids : list Z) :
  forall (w : World) (b : RelayBoard),
  heap w !! self = Some b ->
  wf_board b ->
  Forall (fun c => 1 <= c <= 4) ids ->
  (forall i, (i < length ids)%nat ->
     bus_ok w (length (bus_log w) + i)
       (relay_write (nth i (kill_masks (state b) ids) 0)) = true) ->
  fst (for_each ids (RelayBoard.turn_off self) w) = Return tt /\
  bus_log (after (for_each ids (RelayBoard.turn_off self)) w) =
    bus_log w ++ map relay_write (kill_masks (state b) ids) /\
  mask_of (after (for_each ids (RelayBoard.turn_off self)) w) self =
    Return (List.last (kill_masks (state b) ids) (state b)).
Proof.
  induction ids as [|c ids IH]; intros w b Hb Hwf Hids Hok.
  - unfold after. simpl. rewrite app_nil_r, (mask_of_eq _ _ _ Hb). auto.
  - apply Forall_cons in Hids as [Hc Hids].
    pose proof (written_lookup _ _ _ (Z.land (state b) (Z.lnot (2 ^ (c - 1)))) Hb) as Hb'.
    assert (write_outcome w (relay_write (Z.land (state b) (Z.lnot (2 ^ (c - 1))))) = Return tt) as H0.
    { unfold write_outcome. specialize (Hok O (Nat.lt_0_succ _)).
      rewrite Nat.add_0_r in Hok. cbn [kill_masks nth] in Hok. rewrite Hok. reflexivity. }
    destruct (IH _ _ Hb' (wf_with_state _ _ Hwf) Hids) as (Hr & Hlog & Hmask).
    { intros i Hi. specialize (Hok (S i) (proj1 (Nat.succ_lt_mono _ _) Hi)).
      cbn [bus_ok bus_log written with_bus_log with_heap state with_state].
      rewrite length_app. cbn [length Nat.add kill_masks nth] in *.
      rewrite <- Nat.add_assoc. exact Hok. }
    unfold after in *. simpl for_each. unfold bind.
    rewrite (turn_off_valid _ _ _ _ Hb Hwf Hc).
    rewrite H0. split; [exact Hr|]. split.
    + rewrite Hlog. simpl. rewrite (write_of_wf _ _ Hwf), <- app_assoc. reflexivity.
    + rewrite Hmask. cbn [kill_masks state with_state].
      destruct (kill_masks _ ids) as [|z l]; [reflexivity|].
      f_equal. change (List.last (z :: l) (Z.land (state b) (Z.lnot (2 ^ (c - 1)))) =
                       List.last (z :: l) (state b)).
      apply last_nonempty_default.
Qed.

Lemma for_each_turn_off_first_failure (ids : list Z) :
  forall (k : nat) (w : World) (b : RelayBoard),
  heap w !! self = Some b ->
  wf_board b ->
  Forall (fun c => 1 <= c <= 4) ids ->
  (k < length ids)%nat ->
  (forall i, (i < k)%nat ->
     bus_ok w (length (bus_log w) + i)
       (relay_write (nth i (kill_masks (state b) ids) 0)) = true) ->
  bus_ok w (length (bus_log w) + k)
    (relay_write (nth k (kill_masks (state b) ids) 0)) = false ->
  fst (for_each ids (RelayBoard.turn_off self) w) =
    Raise (BusError (relay_write (nth k (kill_masks (state b) ids) 0))) /\
  bus_log (after (for_each ids (RelayBoard.turn_off self)) w) =
    bus_log w ++ map relay_write (take (S k) (kill_masks (state b) ids)) /\
  mask_of (after (for_each ids (RelayBoard.turn_off self)) w) self =
    Return (nth k (kill_masks (state b) ids) 0).
Proof.
  induction ids as [|c ids IH]; intros k w b Hb Hwf Hids Hk Hok Hko.
  - simpl in Hk. lia.
  - apply Forall_cons in Hids as [Hc Hids].
    pose proof (written_lookup _ _ _ (Z.land (state b) (Z.lnot (2 ^ (c - 1)))) Hb) as Hb'.
    unfold after in *. simpl for_each. unfold bind.
    rewrite (turn_off_valid _ _ _ _ Hb Hwf Hc).
    destruct k as [|k].
    + rewrite Nat.add_0_r in Hko. cbn [kill_masks nth] in Hko.
      unfold write_outcome. rewrite Hko.
      simpl. rewrite (write_of_wf _ _ Hwf). repeat split.
      exact (mask_of_written _ _ _ _ Hb).
    + assert (write_outcome w (relay_write (Z.land (state b) (Z.lnot (2 ^ (c - 1))))) = Return tt) as H0.
      { unfold write_outcome. specialize (Hok O (Nat.lt_0_succ _)).
        rewrite Nat.add_0_r in Hok. cbn [kill_masks nth] in Hok. rewrite Hok. reflexivity. }
      rewrite H0.
      destruct (IH k _ _ Hb' (wf_with_state _ _ Hwf) Hids) as (Hr & Hlog & Hmask).
      * simpl in Hk. lia.
      * intros i Hi. specialize (Hok (S i) (proj1 (Nat.succ_lt_mono _ _) Hi)).
        cbn [bus_ok bus_log written with_bus_log with_heap state with_state].
        rewrite length_app. cbn [length Nat.add kill_masks nth] in *.
        rewrite <- Nat.add_assoc. exact Hok.
      * cbn [bus_ok bus_log written with_bus_log with_heap state with_state].
        rewrite length_app. cbn [length Nat.add kill_masks nth] in *.
        rewrite <- Nat.add_assoc. exact Hko.
      * split; [exact Hr|]. split.
        -- rewrite Hlog. simpl. rewrite (write_of_wf _ _ Hwf), <- app_assoc. reflexivity.
        -- exact Hmask.
Qed.

End KillLoop.

Lemma kill_eq (w : World) (self : loc) (b : RelayBoard) :
  heap w !! self = Some b ->
  RelayBoard.kill self w = for_each (allowed_ids b) (RelayBoard.turn_off self) w.
Proof.
  intros Hb. unfold RelayBoard.kill, bind, getattr. rewrite Hb. reflexivity.
Qed.

Lemma allowed_ids_valid : Forall (fun c => 1 <= c <= 4) ALLOWED_IDS.
Proof. unfold ALLOWED_IDS. repeat constructor; lia. Qed.

Lemma in_range_cases (m : Z) :
  in_range m -> In m [0; 1; 2; 3; 4; 5; 6; 7; 8; 9; 10; 11; 12; 13; 14; 15].
Proof. unfold in_range. simpl. lia. Qed.

Lemma kill_masks_end_all_off (s : Z) :
  in_range s -> nth 3 (kill_masks s ALLOWED_IDS) 0 = 0.
Proof.
  intros H. apply in_range_cases in H. simpl in H.
  repeat (destruct H as [<- | H]; [reflexivity|]). contradiction.
Qed.

(** C2, as the code has it: [kill()] turns the channels off one at a time in
    ascending id order, each by a write of the mask with one more bit
    cleared.  When the four writes go through it returns and a 4-bit mask
    has become 0.  It stops at the first write that fails: the bus exception
    of that write leaves the call, the channels after it are not attempted,
    and nothing is collected. *)
Theorem kill_stops_at_first_failed_write (w : World) (self : loc) (b : RelayBoard) :
  heap w !! self = Some b ->
  wf_board b ->
  let masks := kill_masks (state b) [1; 2; 3; 4] in
  let ok i := bus_ok w (length (bus_log w) + i) (relay_write (nth i masks 0)) in
  ((forall i, (i < 4)%nat -> ok i = true) ->
   fst (RelayBoard.kill self w) = Return tt /\
   bus_log (after (RelayBoard.kill self) w) = bus_log w ++ map relay_write masks /\
   mask_of (after (RelayBoard.kill self) w) self = Return (nth 3 masks 0) /\
   (in_range (state b) -> nth 3 masks 0 = 0)) /\
  (forall k, (k < 4)%nat ->
   (forall i, (i < k)%nat -> ok i = true) ->
   ok k = false ->
   fst (RelayBoard.kill self w) = Raise (BusError (relay_write (nth k masks 0))) /\
   bus_log (after (RelayBoard.kill self) w) =
     bus_log w ++ map relay_write (take (S k) masks) /\
   mask_of (after (RelayBoard.kill self) w) self = Return (nth k masks 0)).
Proof.
  intros Hb Hwf masks ok. unfold after.
  rewrite (kill_eq _ _ _ Hb). destruct Hwf as (Ha & Hr & Hal). rewrite Hal.
  assert (wf_board b) as Hwf by (repeat split; assumption).
  split.
  - intros Hok.
    destruct (for_each_turn_off_all_ok self ALLOWED_IDS w b Hb Hwf allowed_ids_valid Hok)
      as (H1 & H2 & H3).
    repeat split; [exact H1 | exact H2 | exact H3 | exact (kill_masks_end_all_off _)].
  - intros k Hk Hok Hko.
    exact (for_each_turn_off_first_failure self ALLOWED_IDS k w b Hb Hwf
             allowed_ids_valid Hk Hok Hko).
Qed.

Lemma kill_stops_at_first_failed_write_witness :
  fst (RelayBoard.kill 0%nat (one_board 15 (fails_at 2) sound_sleep)) =
    Raise (BusError (relay_write 12)) /\
  bus_log (after (RelayBoard.kill 0%nat) (one_board 15 (fails_at 2) sound_sleep)) =
    map relay_write [15; 14; 12].
Proof.
  destruct (proj2 (kill_stops_at_first_failed_write _ 0%nat _
                     (one_board_lookup 15 (fails_at 2) sound_sleep)
                     (conj eq_refl (conj eq_refl eq_refl))) 1%nat)
    as (H1 & H2 & _).
  - lia.
  - intros i Hi. destruct i as [|i]; [reflexivity | lia].
  - reflexivity.
  - split; [exact H1 | exact H2].
Defined.

(** C2 as stated does not hold: with channels 1..4 on and the write for
    channel 2 failing, [kill()] raises that one bus exception after two
    writes; channels 3 and 4 are never attempted and stay on. *)
Lemma kill_not_best_effort_counterexample :
  let w := one_board 15 (fails_at 2) sound_sleep in
  fst (RelayBoard.kill 0%nat w) = Raise (BusError (relay_write 12)) /\
  bus_log (after (RelayBoard.kill 0%nat) w) = bus_log w ++ map relay_write [14; 12] /\
  length (bus_log (after (RelayBoard.kill 0%nat) w)) <> (length (bus_log w) + 4)%nat /\
  fst (Relay.get_state {| relays := 0%nat; id := 3 |} (after (RelayBoard.kill 0%nat) w)) =
    Return "On"%string /\
  fst (Relay.get_state {| relays := 0%nat; id := 4 |} (after (RelayBoard.kill 0%nat) w)) =
    Return "On"%string.
Proof.
  vm_compute. repeat split; try reflexivity. discriminate.
Qed.

(** ** [cycle]: on, sleep, off *)

Lemma nonneg_float_accepted (d : float) :
  PrimFloat.leb 0 d = true ->
  (PrimFloat.ltb d 0 || PrimFloat.is_nan d)%bool = false.
Proof.
  intros H. unfold PrimFloat.is_nan.
  rewrite FloatAxioms.leb_spec in H.
  rewrite FloatAxioms.ltb_spec, FloatAxioms.eqb_spec.
  change (Prim2SF 0) with (S754_zero false) in *.
  unfold SFleb, SFltb, SFeqb in *.
  destruct (Prim2SF d) as [s | s | | s m e]; simpl in *; try destruct s;
    simpl in *; try discriminate; try reflexivity.
  rewrite Z.compare_refl, Pos.compare_cont_refl. reflexivity.
Qed.

Lemma relay_get_state_eq (w : World) (r : Relay) (b : RelayBoard) :
  heap w !! relays r = Some b ->
  fst (Relay.get_state r w) =
  Return (if Z.eqb (Z.land (state b) (2 ^ (id r - 1))) 0 then "Off" else "On")%string.
Proof.
  intros Hb. unfold Relay.get_state, bind, RelayBoard.get_state, getattr.
  rewrite Hb. reflexivity.
Qed.

Lemma bit_set_after_lor (s k : Z) : 0 <= k -> (Z.land (Z.lor s (2 ^ k)) (2 ^ k) =? 0) = false.
Proof.
  intros Hk. apply Z.eqb_neq. intros H.
  apply (f_equal (fun z => Z.testbit z k)) in H.
  rewrite Z.land_spec, Z.lor_spec, (Z.pow2_bits_eqb k k Hk), Z.eqb_refl,
    orb_true_r, Z.bits_0 in H.
  discriminate.
Qed.

Lemma bit_clear_after_land_lnot (s k : Z) :
  (Z.land (Z.land s (Z.lnot (2 ^ k))) (2 ^ k) =? 0) = true.
Proof.
  apply Z.eqb_eq.
  rewrite <- Z.land_assoc, (Z.land_comm (Z.lnot _)), Z.land_lnot_diag.
  apply Z.land_0_r.
Qed.

(** The scenario of a fresh board: [RelayBoard()], a relay on channel c,
    [cycle(0.0)] on a bus that works and a sleep that returns. *)
Lemma cycle_zero_on_fresh_board (c : Z) :
  1 <= c <= 4 ->
  fst (cycle_on_fresh_board c 0 (empty_world always_ok sound_sleep)) =
    Return "Off"%string /\
  bus_log (after (cycle_on_fresh_board c 0) (empty_world always_ok sound_sleep)) =
    map relay_write [0; 2 ^ (c - 1); 0].
Proof.
  intros Hc. assert (c = 1 \/ c = 2 \/ c = 3 \/ c = 4) as Hcases by lia.
  destruct Hcases as [-> | [-> | [-> | ->]]]; vm_compute; split; reflexivity.
Qed.

(** C3, as the code has it: for every duration >= 0, [cycle(duration)] calls
    [on()], then sleeps, then calls [off()], each only if the call before it
    returned.  When the write of [on()] goes through and the sleep returns,
    [off()] is called: two writes are requested (on, then off) and the relay
    reads Off.  When the sleep is left by an exception, that exception leaves
    [cycle], [off()] is not called, and the relay reads On.  When the write
    of [on()] fails, neither the sleep nor [off()] happens.  On a fresh
    board with a working bus, [cycle(0.0)] leaves the relay Off after exactly
    two writes, on then off, that follow the constructor's write of 0. *)
Theorem cycle_is_on_sleep_off_in_sequence (w : World) (r : Relay) (b : RelayBoard)
    (duration : float) :
  heap w !! relays r = Some b ->
  wf_board b ->
  1 <= id r <= 4 ->
  PrimFloat.leb 0 duration = true ->
  let on_mask := Z.lor (state b) (2 ^ (id r - 1)) in
  let off_mask := Z.land on_mask (Z.lnot (2 ^ (id r - 1))) in
  let on_ok := bus_ok w (length (bus_log w)) (relay_write on_mask) in
  let off_ok := bus_ok w (S (length (bus_log w))) (relay_write off_mask) in
  let nap := sleep_raises w (length (sleep_log w)) duration in
  let w' := after (Relay.cycle r duration) w in
  (on_ok = true -> nap = None ->
   fst (Relay.cycle r duration w) =
     (if off_ok then Return tt else Raise (BusError (relay_write off_mask))) /\
   bus_log w' = bus_log w ++ [relay_write on_mask; relay_write off_mask] /\
   fst (Relay.get_state r w') = Return "Off"%string) /\
  (on_ok = true -> forall code, nap = Some code ->
   fst (Relay.cycle r duration w) = Raise (SleepError code) /\
   bus_log w' = bus_log w ++ [relay_write on_mask] /\
   fst (Relay.get_state r w') = Return "On"%string) /\
  (on_ok = false ->
   fst (Relay.cycle r duration w) = Raise (BusError (relay_write on_mask)) /\
   bus_log w' = bus_log w ++ [relay_write on_mask] /\
   sleep_log w' = sleep_log w) /\
  (fst (cycle_on_fresh_board (id r) 0 (empty_world always_ok sound_sleep)) =
     Return "Off"%string /\
   bus_log (after (cycle_on_fresh_board (id r) 0) (empty_world always_ok sound_sleep)) =
     map relay_write [0; 2 ^ (id r - 1); 0]).
Proof.
  intros Hb Hwf Hc Hd on_mask off_mask on_ok off_ok nap w'.
  assert (0 <= id r - 1) as Hk by lia.
  pose proof (written_lookup _ _ _ on_mask Hb) as Hb1.
  set (w1 := with_sleep_log (sleep_log w ++ [duration]) (written w (relays r) b on_mask)).
  assert (heap w1 !! relays r = Some (with_state on_mask b)) as Hb2 by exact Hb1.
  assert (bus_log (written w (relays r) b on_mask) = bus_log w ++ [relay_write on_mask])
    as Hlog1.
  { unfold written. simpl. rewrite (write_of_wf _ _ Hwf). reflexivity. }
  assert (Relay.cycle r duration w =
          if on_ok
          then match nap with
               | None => RelayBoard.turn_off (relays r) (id r) w1
               | Some code => (Raise (SleepError code), w1)
               end
          else (Raise (BusError (relay_write on_mask)), written w (relays r) b on_mask))
    as Hcycle.
  { unfold Relay.cycle, Relay.on, Relay.off, bind.
    rewrite (turn_on_valid _ _ _ _ Hb Hwf Hc). fold on_mask.
    unfold write_outcome. fold on_ok. destruct on_ok; [|reflexivity].
    unfold time_sleep. rewrite (nonneg_float_accepted _ Hd).
    cbn [sleep_raises sleep_log written with_bus_log with_heap]. fold nap.
    destruct nap; reflexivity. }
  subst w'. change (after (Relay.cycle r duration) w) with (snd (Relay.cycle r duration w)).
  rewrite Hcycle. clear Hcycle.
  split; [|split; [|split]]; [| | |exact (cycle_zero_on_fresh_board _ Hc)].
  - intros Hon Hnap. rewrite Hon, Hnap.
    rewrite (turn_off_valid _ _ _ _ Hb2 (wf_with_state _ _ Hwf) Hc).
    cbn [state with_state]. fold off_mask. cbn [fst snd].
    split; [|split].
    + unfold write_outcome. subst w1. cbn [bus_log with_sleep_log].
      rewrite Hlog1, length_app, Nat.add_1_r. reflexivity.
    + unfold written at 1. cbn [bus_log with_bus_log with_heap].
      subst w1. cbn [bus_log with_sleep_log]. rewrite Hlog1, <- app_assoc.
      rewrite (write_of_wf _ _ (wf_with_state _ _ Hwf)). reflexivity.
    + rewrite (relay_get_state_eq _ _ _ (written_lookup _ _ _ off_mask Hb2)).
      cbn [state with_state]. subst off_mask.
      rewrite bit_clear_after_land_lnot. reflexivity.
  - intros Hon code Hnap. rewrite Hon, Hnap. cbn [fst snd].
    split; [reflexivity|]. split; [exact Hlog1|].
    rewrite (relay_get_state_eq _ _ _ Hb2). cbn [state with_state]. subst on_mask.
    rewrite (bit_set_after_lor _ _ Hk). reflexivity.
  - intros Hoff. rewrite Hoff. cbn [fst snd].
    split; [reflexivity|]. split; [exact Hlog1|reflexivity].
Qed.

Lemma cycle_is_on_sleep_off_in_sequence_witness :
  let w := one_board 0 always_ok sound_sleep in
  let r := {| relays := 0%nat; id := 2 |} in
  fst (Relay.cycle r 0 w) = Return tt /\
  bus_log (after (Relay.cycle r 0) w) = bus_log w ++ [relay_write 2; relay_write 0] /\
  fst (Relay.get_state r (after (Relay.cycle r 0) w)) = Return "Off"%string.
Proof.
  refine (proj1 (cycle_is_on_sleep_off_in_sequence
                   (one_board 0 always_ok sound_sleep) {| relays := 0%nat; id := 2 |} _ 0
                   (one_board_lookup 0 always_ok sound_sleep)
                   (conj eq_refl (conj eq_refl eq_refl)) _ _) eq_refl eq_refl).
  - simpl. lia.
  - reflexivity.
Defined.

(** C3 as stated does not hold: when the sleep of [cycle(1.5)] is
    interrupted, the exception leaves [cycle] after the single write of
    [on()]; [off()] is never called and the relay stays On. *)
Lemma cycle_interrupted_counterexample :
  let w := one_board 0 always_ok interrupted_sleep in
  let r := {| relays := 0%nat; id := 1 |} in
  PrimFloat.leb 0 1.5 = true /\
  fst (Relay.cycle r 1.5 w) = Raise (SleepError 0) /\
  bus_log (after (Relay.cycle r 1.5) w) = bus_log w ++ [relay_write 1] /\
  fst (Relay.get_state r (after (Relay.cycle r 1.5) w)) = Return "On"%string.
Proof.
  vm_compute. repeat split; reflexivity.
Qed.

(** ** The register stays a 4-bit mask *)

Ltac each_mask H :=
  apply in_range_cases in H; simpl in H;
  repeat (destruct H as [<- | H];
          [split; apply Z.leb_le; vm_compute; reflexivity|]);
  contradiction.

Lemma channel_cases (c : Z) : 1 <= c <= 4 -> c = 1 \/ c = 2 \/ c = 3 \/ c = 4.
Proof. lia. Qed.

Lemma lor_bit_in_range (s c : Z) :
  in_range s -> 1 <= c <= 4 -> in_range (Z.lor s (2 ^ (c - 1))).
Proof.
  intros Hs Hc.
  destruct (channel_cases c Hc) as [-> | [-> | [-> | ->]]]; each_mask Hs.
Qed.

Lemma land_lnot_bit_in_range (s c : Z) :
  in_range s -> 1 <= c <= 4 -> in_range (Z.land s (Z.lnot (2 ^ (c - 1)))).
Proof.
  intros Hs Hc.
  destruct (channel_cases c Hc) as [-> | [-> | [-> | ->]]]; each_mask Hs.
Qed.

Lemma lxor_bit_in_range (s c : Z) :
  in_range s -> 1 <= c <= 4 -> in_range (Z.lxor s (2 ^ (c - 1))).
Proof.
  intros Hs Hc.
  destruct (channel_cases c Hc) as [-> | [-> | [-> | ->]]]; each_mask Hs.
Qed.

Lemma written_in_range (w : World) (self : loc) (b : RelayBoard) (m : Z) :
  registers_in_range w ->
  heap w !! self = Some b ->
  in_range m ->
  registers_in_range (written w self b m).
Proof.
  intros Hinv Hb Hm. unfold registers_in_range, written. simpl.
  apply Forall_insert; [exact Hinv|].
  destruct (Forall_lookup_1 _ _ _ _ Hinv Hb) as [Hwf _].
  split; [exact (wf_with_state _ _ Hwf) | exact Hm].
Qed.

Lemma preserves_ret {A : Type} (a : A) : preserves (ret a).
Proof. intros w H. exact H. Qed.

Lemma preserves_raise {A : Type} (e : exn) : preserves (@raise A e).
Proof. intros w H. exact H. Qed.

Lemma preserves_getattr {A : Type} (self : loc) (field : RelayBoard -> A) :
  preserves (getattr self field).
Proof.
  intros w H. unfold after, getattr. destruct (heap w !! self); exact H.
Qed.

Lemma preserves_bind {A B : Type} (m : Py A) (k : A -> Py B) :
  preserves m -> (forall a, preserves (k a)) -> preserves (bind m k).
Proof.
  intros Hm Hk w H. specialize (Hm w H). unfold after, bind in *.
  destruct (m w) as [[a | e |] w1]; simpl in Hm; [|exact Hm|exact Hm].
  exact (Hk a w1 Hm).
Qed.

Lemma preserves_for_each {A : Type} (xs : list A) (body : A -> Py unit) :
  (forall x, preserves (body x)) -> preserves (for_each xs body).
Proof.
  intros Hbody. induction xs as [|x xs IH]; simpl.
  - apply preserves_ret.
  - apply preserves_bind; [apply Hbody | intros _; exact IH].
Qed.

Lemma preserves_set_state (self : loc) (m : Z) :
  in_range m -> preserves (RelayBoard.set_state self m).
Proof.
  intros Hm w H. unfold after. destruct (heap w !! self) as [b|] eqn:Hb.
  - rewrite (set_state_eq _ _ _ _ Hb). exact (written_in_range _ _ _ _ H Hb Hm).
  - unfold RelayBoard.set_state, bind, setattr_state. rewrite Hb. exact H.
Qed.

Lemma preserves_alloc (b : RelayBoard) :
  wf_board b -> in_range (state b) -> preserves (alloc b).
Proof.
  intros Hwf Hs w H. unfold after, alloc, registers_in_range. simpl.
  apply Forall_app. split; [exact H|].
  constructor; [split; assumption | constructor].
Qed.

Lemma preserves_time_sleep (secs : float) : preserves (time_sleep secs).
Proof.
  intros w H. unfold after, time_sleep.
  destruct (_ || _)%bool; [exact H|].
  destruct (sleep_raises w _ _); exact H.
Qed.

(** The three channel operations share one shape: an id check, then
    [set_state] of a mask computed from the stored one. *)
Lemma preserves_channel_op (f : Z -> Z -> Z) (self : loc) (c : Z) :
  (forall s, in_range s -> 1 <= c <= 4 -> in_range (f s c)) ->
  preserves (allowed <- getattr self allowed_ids ;;
             if negb (py_in c allowed) then raise (IdNotAllowed allowed)
             else s <- getattr self state ;; RelayBoard.set_state self (f s c)).
Proof.
  intros Hf w H. unfold after, bind, getattr at 1.
  destruct (heap w !! self) as [b|] eqn:Hb; [|exact H].
  destruct (Forall_lookup_1 _ _ _ _ H Hb) as [(_ & _ & Hal) Hs]. rewrite Hal.
  destruct (py_in c ALLOWED_IDS) eqn:Hin; [|exact H].
  cbn [negb]. cbv beta. unfold getattr. rewrite Hb.
  apply (preserves_set_state self (f (state b) c)); [|exact H].
  apply Hf; [exact Hs | exact (proj1 (py_in_allowed c) Hin)].
Qed.

Lemma preserves_turn_on (self : loc) (c : Z) : preserves (RelayBoard.turn_on self c).
Proof.
  exact (preserves_channel_op (fun s c => Z.lor s (2 ^ (c - 1))) self c
           (fun s => lor_bit_in_range s c)).
Qed.

Lemma preserves_turn_off (self : loc) (c : Z) : preserves (RelayBoard.turn_off self c).
Proof.
  exact (preserves_channel_op (fun s c => Z.land s (Z.lnot (2 ^ (c - 1)))) self c
           (fun s => land_lnot_bit_in_range s c)).
Qed.

Lemma preserves_switch (self : loc) (c : Z) : preserves (RelayBoard.switch self c).
Proof.
  exact (preserves_channel_op (fun s c => Z.lxor s (2 ^ (c - 1))) self c
           (fun s => lxor_bit_in_range s c)).
Qed.

Lemma preserves_kill (self : loc) : preserves (RelayBoard.kill self).
Proof.
  apply preserves_bind; [apply preserves_getattr|].
  intros allowed. apply preserves_for_each. intros c. apply preserves_turn_off.
Qed.

Lemma preserves_del (self : loc) : preserves (RelayBoard.__del__ self).
Proof.
  apply preserves_bind; [apply preserves_getattr|].
  intros p. destruct p; simpl; [apply preserves_ret | apply preserves_kill].
Qed.

Lemma preserves_new (m : Z) (p : bool) : in_range m -> preserves (RelayBoard.new m p).
Proof.
  intros Hm. apply preserves_bind.
  - apply preserves_alloc; [repeat split | unfold in_range; simpl; lia].
  - intros self. apply preserves_bind; [exact (preserves_set_state self m Hm)|].
    intros _. apply preserves_ret.
Qed.

Lemma preserves_run_op (o : op) :
  mask_arg_in_range o -> forall w, registers_in_range w -> registers_in_range (run_op o w).
Proof.
  intros Ho. destruct o; simpl in *.
  - exact (preserves_new _ _ Ho).
  - exact (preserves_set_state _ _ Ho).
  - apply preserves_switch.
  - apply preserves_turn_on.
  - apply preserves_turn_off.
  - apply preserves_getattr.
  - apply preserves_kill.
  - apply preserves_del.
  - apply (preserves_ret self).
  - apply preserves_del.
  - apply preserves_bind; [apply preserves_getattr|]. intros allowed.
    destruct (negb _); [apply preserves_raise|].
    destruct initially_on; [|apply preserves_ret].
    apply preserves_bind; [apply preserves_turn_on | intros _; apply preserves_ret].
  - apply preserves_turn_on.
  - apply preserves_turn_off.
  - apply preserves_bind; [apply preserves_turn_on|]. intros _.
    apply preserves_bind; [apply preserves_time_sleep|]. intros _.
    apply preserves_turn_off.
  - apply preserves_switch.
  - apply preserves_bind; [apply preserves_getattr | intros s; apply preserves_ret].
Qed.

(** C5, as the code has it: no call checks a mask, so the register holds
    whatever [set_state] or the constructor is given.  If every mask given to
    them lies in 0..15, then after any sequence of calls on boards and relays,
    whatever the bus and the sleeps do, every board's stored mask lies in
    0..15, and so does what [get_state()] returns. *)
Theorem register_stays_4_bit_for_4_bit_arguments (ops : list op) (w : World) :
  registers_in_range w ->
  Forall mask_arg_in_range ops ->
  registers_in_range (run_ops ops w) /\
  (forall self m, mask_of (run_ops ops w) self = Return m -> in_range m).
Proof.
  intros Hw Hops.
  assert (registers_in_range (run_ops ops w)) as Hend.
  { revert w Hw. induction Hops as [|o ops Ho Hops IH]; intros w Hw; [exact Hw|].
    simpl. apply IH. exact (preserves_run_op o Ho w Hw). }
  split; [exact Hend|].
  intros self m Hm. unfold mask_of, RelayBoard.get_state, getattr in Hm.
  destruct (heap (run_ops ops w) !! self) as [b|] eqn:Hb; [|discriminate].
  injection Hm as <-. exact (proj2 (Forall_lookup_1 _ _ _ _ Hend Hb)).
Qed.

Lemma register_stays_4_bit_for_4_bit_arguments_witness :
  let r := {| relays := 0%nat; id := 3 |} in
  let ops := [Op_RelayBoard 5 false; Op_turn_on 0%nat 2; Op_switch 0%nat 4;
              Op_set_state 0%nat 9; Op_cycle r 0.5; Op_toggle r; Op_kill 0%nat] in
  registers_in_range (run_ops ops (empty_world (fails_at 3) sound_sleep)).
Proof.
  refine (proj1 (register_stays_4_bit_for_4_bit_arguments _
                   (empty_world (fails_at 3) sound_sleep) _ _)).
  - constructor.
  - repeat constructor; unfold in_range; lia.
Defined.

(** C5 as stated does not hold: [set_state(16)] on a fresh board leaves 16,
    which is no 4-bit value, in the register. *)
Lemma register_out_of_range_counterexample :
  let w := run_ops [Op_RelayBoard 0 false; Op_set_state 0%nat 16]
             (empty_world always_ok sound_sleep) in
  mask_of w 0%nat = Return 16 /\ ~ in_range 16.
Proof.
  split; [vm_compute; reflexivity|]. unfold in_range. lia.
Qed.

(** * Further properties of the module *)

(** ** How the channel operations act on the mask *)

(** The mask each channel operation computes from the stored one. *)
Lemma channel_op_valid (f : loc -> Z -> Py unit) :
  In f [RelayBoard.turn_on; RelayBoard.turn_off; RelayBoard.switch] ->
  exists fm : Z -> Z -> Z,
    (forall w self b c,
       heap w !! self = Some b -> wf_board b -> 1 <= c <= 4 ->
       f self c w = (write_outcome w (relay_write (fm (state b) c)),
                     written w self b (fm (state b) c))) /\
    (forall s c, 1 <= c <= 4 -> same_bits_except (c - 1) s (fm s c)) /\
    (forall s s' c, 1 <= c <= 4 ->
       Z.testbit s (c - 1) = Z.testbit s' (c - 1) ->
       Z.testbit (fm s c) (c - 1) = Z.testbit (fm s' c) (c - 1)).
Proof.
  intros [<- | [<- | [<- | []]]].
  - exists (fun s c => Z.lor s (2 ^ (c - 1))). split; [|split].
    + intros. apply turn_on_valid; assumption.
    + intros s c Hc. apply lor_bit_frame. lia.
    + intros s s' c Hc H. rewrite !Z.lor_spec, H. reflexivity.
  - exists (fun s c => Z.land s (Z.lnot (2 ^ (c - 1)))). split; [|split].
    + intros. apply turn_off_valid; assumption.
    + intros s c Hc. apply land_lnot_bit_frame. lia.
    + intros s s' c Hc H. rewrite !Z.land_spec, H. reflexivity.
  - exists (fun s c => Z.lxor s (2 ^ (c - 1))). split; [|split].
    + intros. apply switch_valid; assumption.
    + intros s c Hc. apply lxor_bit_frame. lia.
    + intros s s' c Hc H. rewrite !Z.lxor_spec, H. reflexivity.
Qed.

Lemma lor_bit_sets (s k : Z) : 0 <= k -> Z.testbit (Z.lor s (2 ^ k)) k = true.
Proof.
  intros Hk. rewrite Z.lor_spec, (Z.pow2_bits_eqb k k Hk), Z.eqb_refl.
  apply orb_true_r.
Qed.

Lemma land_lnot_bit_clears (s k : Z) :
  0 <= k -> Z.testbit (Z.land s (Z.lnot (2 ^ k))) k = false.
Proof.
  intros Hk.
  rewrite Z.land_spec, (Z.lnot_spec _ k Hk), (Z.pow2_bits_eqb k k Hk), Z.eqb_refl.
  apply andb_false_r.
Qed.

Lemma lxor_bit_flips (s k : Z) :
  0 <= k -> Z.testbit (Z.lxor s (2 ^ k)) k = negb (Z.testbit s k).
Proof.
  intros Hk. rewrite Z.lxor_spec, (Z.pow2_bits_eqb k k Hk), Z.eqb_refl.
  apply xorb_true_r.
Qed.

Lemma lor_bit_already_set (s k : Z) :
  0 <= k -> Z.testbit s k = true -> Z.lor s (2 ^ k) = s.
Proof.
  intros Hk Hs. apply Z.bits_inj'. intros j Hj.
  rewrite Z.lor_spec, (Z.pow2_bits_eqb k j Hk).
  destruct (Z.eqb_spec k j) as [<- | _]; [rewrite Hs; reflexivity | apply orb_false_r].
Qed.

Lemma land_lnot_bit_already_clear (s k : Z) :
  0 <= k -> Z.testbit s k = false -> Z.land s (Z.lnot (2 ^ k)) = s.
Proof.
  intros Hk Hs. apply Z.bits_inj'. intros j Hj.
  rewrite Z.land_spec, (Z.lnot_spec _ j Hj), (Z.pow2_bits_eqb k j Hk).
  destruct (Z.eqb_spec k j) as [<- | _]; [rewrite Hs; reflexivity | apply andb_true_r].
Qed.

(** X1: for a channel id c in 1..4, whether or not the bus write goes
    through, [turn_on(c)] leaves bit c-1 of the stored mask set,
    [turn_off(c)] leaves it clear, and [switch(c)] leaves it inverted. *)
Theorem channel_ops_set_clear_flip (w : World) (self : loc) (b : RelayBoard) (c : Z) :
  heap w !! self = Some b ->
  wf_board b ->
  1 <= c <= 4 ->
  (exists m', mask_of (after (RelayBoard.turn_on self c) w) self = Return m' /\
              Z.testbit m' (c - 1) = true) /\
  (exists m', mask_of (after (RelayBoard.turn_off self c) w) self = Return m' /\
              Z.testbit m' (c - 1) = false) /\
  (exists m', mask_of (after (RelayBoard.switch self c) w) self = Return m' /\
              Z.testbit m' (c - 1) = negb (Z.testbit (state b) (c - 1))).
Proof.
  intros Hb Hwf Hc. unfold after.
  rewrite (turn_on_valid _ _ _ _ Hb Hwf Hc), (turn_off_valid _ _ _ _ Hb Hwf Hc),
    (switch_valid _ _ _ _ Hb Hwf Hc). simpl snd.
  rewrite !(mask_of_written _ _ _ _ Hb).
  assert (0 <= c - 1) as Hk by lia.
  split; [|split]; eexists; (split; [reflexivity|]).
  - exact (lor_bit_sets _ _ Hk).
  - exact (land_lnot_bit_clears _ _ Hk).
  - exact (lxor_bit_flips _ _ Hk).
Qed.

Lemma channel_ops_set_clear_flip_witness :
  exists m', mask_of (after (RelayBoard.turn_off 0%nat 2) (one_board 7 never_ok sound_sleep))
               0%nat = Return m' /\
             Z.testbit m' 1 = false.
Proof.
  refine (proj1 (proj2 (channel_ops_set_clear_flip _ 0%nat _ 2
                   (one_board_lookup 7 never_ok sound_sleep) _ _))).
  - repeat split.
  - lia.
Defined.

(** X2: nothing is skipped when the relay is already in the wanted state:
    [turn_on(c)] on a channel that is on, and [turn_off(c)] on a channel that
    is off, still request one write, of the unchanged mask. *)
Theorem no_write_is_skipped (w : World) (self : loc) (b : RelayBoard) (c : Z) :
  heap w !! self = Some b ->
  wf_board b ->
  1 <= c <= 4 ->
  (Z.testbit (state b) (c - 1) = true ->
   bus_log (after (RelayBoard.turn_on self c) w) =
     bus_log w ++ [relay_write (state b)] /\
   mask_of (after (RelayBoard.turn_on self c) w) self = Return (state b)) /\
  (Z.testbit (state b) (c - 1) = false ->
   bus_log (after (RelayBoard.turn_off self c) w) =
     bus_log w ++ [relay_write (state b)] /\
   mask_of (after (RelayBoard.turn_off self c) w) self = Return (state b)).
Proof.
  intros Hb Hwf Hc. assert (0 <= c - 1) as Hk by lia. unfold after.
  rewrite (turn_on_valid _ _ _ _ Hb Hwf Hc), (turn_off_valid _ _ _ _ Hb Hwf Hc).
  simpl snd. rewrite !(mask_of_written _ _ _ _ Hb).
  unfold written. cbn [bus_log with_bus_log with_heap].
  rewrite !(write_of_wf _ _ Hwf).
  split; intros Hbit.
  - rewrite (lor_bit_already_set _ _ Hk Hbit). split; reflexivity.
  - rewrite (land_lnot_bit_already_clear _ _ Hk Hbit). split; reflexivity.
Qed.

Lemma no_write_is_skipped_witness :
  bus_log (after (RelayBoard.turn_on 0%nat 1) (one_board 5 always_ok sound_sleep)) =
    bus_log (one_board 5 always_ok sound_sleep) ++ [relay_write 5] /\
  mask_of (after (RelayBoard.turn_on 0%nat 1) (one_board 5 always_ok sound_sleep)) 0%nat =
    Return 5.
Proof.
  refine (proj1 (no_write_is_skipped _ 0%nat _ 1
                   (one_board_lookup 5 always_ok sound_sleep) _ _) _).
  - repeat split.
  - lia.
  - reflexivity.
Defined.

(** ** How the channel operations compose *)

Lemma two_valid_calls (f g : loc -> Z -> Py unit) (fm gm : Z -> Z -> Z)
    (w : World) (self : loc) (b : RelayBoard) (c1 c2 : Z) :
  (forall w self b c,
     heap w !! self = Some b -> wf_board b -> 1 <= c <= 4 ->
     f self c w = (write_outcome w (relay_write (fm (state b) c)),
                   written w self b (fm (state b) c))) ->
  (forall w self b c,
     heap w !! self = Some b -> wf_board b -> 1 <= c <= 4 ->
     g self c w = (write_outcome w (relay_write (gm (state b) c)),
                   written w self b (gm (state b) c))) ->
  heap w !! self = Some b -> wf_board b -> reliable_bus w ->
  1 <= c1 <= 4 -> 1 <= c2 <= 4 ->
  fst ((f self c1 ;; g self c2) w) = Return tt /\
  mask_of (after (f self c1 ;; g self c2) w) self = Return (gm (fm (state b) c1) c2).
Proof.
  intros Hf Hg Hb Hwf Hbus Hc1 Hc2. unfold after, bind.
  rewrite (Hf _ _ _ _ Hb Hwf Hc1), (write_outcome_reliable _ _ Hbus).
  pose proof (written_lookup _ _ _ (fm (state b) c1) Hb) as Hb'.
  rewrite (Hg _ _ _ _ Hb' (wf_with_state _ _ Hwf) Hc2).
  rewrite (write_outcome_reliable _ _ (written_reliable _ _ _ _ Hbus)).
  split; [reflexivity|]. exact (mask_of_written _ _ _ _ Hb').
Qed.

(** X3: on a bus whose writes succeed, [turn_on(c)] followed by
    [turn_off(c)] returns and leaves the starting mask with bit c-1 cleared
    and every other bit as it was: the mask [turn_off(c)] alone leaves. *)
Theorem turn_on_then_turn_off (w : World) (self : loc) (b : RelayBoard) (c : Z) :
  heap w !! self = Some b ->
  wf_board b ->
  reliable_bus w ->
  1 <= c <= 4 ->
  fst ((RelayBoard.turn_on self c ;; RelayBoard.turn_off self c) w) = Return tt /\
  mask_of (after (RelayBoard.turn_on self c ;; RelayBoard.turn_off self c) w) self =
    mask_of (after (RelayBoard.turn_off self c) w) self /\
  exists m',
    mask_of (after (RelayBoard.turn_on self c ;; RelayBoard.turn_off self c) w) self =
      Return m' /\
    Z.testbit m' (c - 1) = false /\
    same_bits_except (c - 1) (state b) m'.
Proof.
  intros Hb Hwf Hbus Hc. assert (0 <= c - 1) as Hk by lia.
  destruct (two_valid_calls RelayBoard.turn_on RelayBoard.turn_off
              (fun s k => Z.lor s (2 ^ (k - 1)))
              (fun s k => Z.land s (Z.lnot (2 ^ (k - 1)))) w self b c c
              turn_on_valid turn_off_valid Hb Hwf Hbus Hc Hc) as [Hr Hm].
  cbv beta in Hm.
  assert (Z.land (Z.lor (state b) (2 ^ (c - 1))) (Z.lnot (2 ^ (c - 1))) =
          Z.land (state b) (Z.lnot (2 ^ (c - 1)))) as Heq.
  { rewrite Z.land_lor_distr_l, Z.land_lnot_diag. apply Z.lor_0_r. }
  split; [exact Hr|]. rewrite Hm, Heq. split.
  - unfold after at 1. rewrite (turn_off_valid _ _ _ _ Hb Hwf Hc). simpl snd.
    rewrite (mask_of_written _ _ _ _ Hb). reflexivity.
  - eexists. split; [reflexivity|]. split.
    + exact (land_lnot_bit_clears _ _ Hk).
    + exact (land_lnot_bit_frame _ _ Hk).
Qed.

Lemma turn_on_then_turn_off_witness :
  mask_of (after (RelayBoard.turn_on 0%nat 3 ;; RelayBoard.turn_off 0%nat 3)
             (one_board 6 always_ok sound_sleep)) 0%nat =
  mask_of (after (RelayBoard.turn_off 0%nat 3) (one_board 6 always_ok sound_sleep)) 0%nat.
Proof.
  refine (proj1 (proj2 (turn_on_then_turn_off _ 0%nat _ 3
                   (one_board_lookup 6 always_ok sound_sleep) _ _ _))).
  - repeat split.
  - intros n t. reflexivity.
  - lia.
Defined.

(** X4: on a bus whose writes succeed, [turn_off(c)] twice returns and
    leaves the mask that a single [turn_off(c)] leaves. *)
Theorem turn_off_idempotent (w : World) (self : loc) (b : RelayBoard) (c : Z) :
  heap w !! self = Some b ->
  wf_board b ->
  reliable_bus w ->
  1 <= c <= 4 ->
  fst ((RelayBoard.turn_off self c ;; RelayBoard.turn_off self c) w) = Return tt /\
  mask_of (after (RelayBoard.turn_off self c ;; RelayBoard.turn_off self c) w) self =
  mask_of (after (RelayBoard.turn_off self c) w) self.
Proof.
  intros Hb Hwf Hbus Hc.
  destruct (two_valid_calls RelayBoard.turn_off RelayBoard.turn_off
              (fun s k => Z.land s (Z.lnot (2 ^ (k - 1))))
              (fun s k => Z.land s (Z.lnot (2 ^ (k - 1)))) w self b c c
              turn_off_valid turn_off_valid Hb Hwf Hbus Hc Hc) as [Hr Hm].
  cbv beta in Hm.
  split; [exact Hr|]. rewrite Hm.
  unfold after. rewrite (turn_off_valid _ _ _ _ Hb Hwf Hc). simpl snd.
  rewrite (mask_of_written _ _ _ _ Hb).
  rewrite <- Z.land_assoc, Z.land_diag. reflexivity.
Qed.

Lemma turn_off_idempotent_witness :
  mask_of (after (RelayBoard.turn_off 0%nat 1 ;; RelayBoard.turn_off 0%nat 1)
             (one_board 13 always_ok sound_sleep)) 0%nat =
  mask_of (after (RelayBoard.turn_off 0%nat 1) (one_board 13 always_ok sound_sleep)) 0%nat.
Proof.
  refine (proj2 (turn_off_idempotent _ 0%nat _ 1
                   (one_board_lookup 13 always_ok sound_sleep) _ _ _)).
  - repeat split.
  - intros n t. reflexivity.
  - lia.
Defined.

(** X5: on a bus whose writes succeed, operations on two different channels
    commute: for f and g among [turn_on], [turn_off], [switch] and ids
    c1 <> c2 in 1..4, f(c1) then g(c2) leaves the mask that g(c2) then f(c1)
    leaves. *)
Theorem distinct_channels_commute (f g : loc -> Z -> Py unit)
    (w : World) (self : loc) (b : RelayBoard) (c1 c2 : Z) :
  In f [RelayBoard.turn_on; RelayBoard.turn_off; RelayBoard.switch] ->
  In g [RelayBoard.turn_on; RelayBoard.turn_off; RelayBoard.switch] ->
  heap w !! self = Some b ->
  wf_board b ->
  reliable_bus w ->
  1 <= c1 <= 4 ->
  1 <= c2 <= 4 ->
  c1 <> c2 ->
  fst ((f self c1 ;; g self c2) w) = Return tt /\
  fst ((g self c2 ;; f self c1) w) = Return tt /\
  mask_of (after (f self c1 ;; g self c2) w) self =
  mask_of (after (g self c2 ;; f self c1) w) self.
Proof.
  intros Hf Hg Hb Hwf Hbus Hc1 Hc2 Hne.
  destruct (channel_op_valid f Hf) as (fm & Hfv & Hfframe & Hfbit).
  destruct (channel_op_valid g Hg) as (gm & Hgv & Hgframe & Hgbit).
  destruct (two_valid_calls f g fm gm w self b c1 c2 Hfv Hgv Hb Hwf Hbus Hc1 Hc2)
    as [Hr1 Hm1].
  destruct (two_valid_calls g f gm fm w self b c2 c1 Hgv Hfv Hb Hwf Hbus Hc2 Hc1)
    as [Hr2 Hm2].
  split; [exact Hr1|]. split; [exact Hr2|]. rewrite Hm1, Hm2. f_equal.
  apply Z.bits_inj'. intros j _.
  destruct (Z.eq_dec j (c1 - 1)) as [-> | Hj1].
  - rewrite (Hgframe _ c2 Hc2 (c1 - 1)) by lia.
    apply Hfbit; [exact Hc1|]. symmetry. apply (Hgframe _ c2 Hc2). lia.
  - rewrite (Hfframe _ c1 Hc1 j Hj1).
    destruct (Z.eq_dec j (c2 - 1)) as [-> | Hj2].
    + apply Hgbit; [exact Hc2|]. apply (Hfframe _ c1 Hc1). lia.
    + rewrite !(Hgframe _ c2 Hc2 j Hj2). apply (Hfframe _ c1 Hc1 j Hj1).
Qed.

Lemma distinct_channels_commute_witness :
  mask_of (after (RelayBoard.switch 0%nat 1 ;; RelayBoard.turn_off 0%nat 4)
             (one_board 10 always_ok sound_sleep)) 0%nat =
  mask_of (after (RelayBoard.turn_off 0%nat 4 ;; RelayBoard.switch 0%nat 1)
             (one_board 10 always_ok sound_sleep)) 0%nat.
Proof.
  refine (proj2 (proj2 (distinct_channels_commute RelayBoard.switch RelayBoard.turn_off
                   _ 0%nat _ 1 4 _ _
                   (one_board_lookup 10 always_ok sound_sleep) _ _ _ _ _))).
  - right. right. left. reflexivity.
  - right. left. reflexivity.
  - repeat split.
  - intros n t. reflexivity.
  - lia.
  - lia.
  - lia.
Defined.

(** ** What [__str__] prints *)

Lemma str_eq (w : World) (self : loc) (b : RelayBoard) :
  heap w !! self = Some b ->
  RelayBoard.__str__ self w = (Return (rendering (state b)), w).
Proof.
  intros Hb. unfold RelayBoard.__str__, bind, RelayBoard.get_state, getattr, ret.
  repeat (rewrite Hb; cbv beta iota zeta). unfold rendering.
  change (1 - 1) with 0. change (2 - 1) with 1. change (3 - 1) with 2.
  change (4 - 1) with 3.
  destruct (Z.land (state b) (2 ^ 0) =? 0), (Z.land (state b) (2 ^ 1) =? 0),
    (Z.land (state b) (2 ^ 2) =? 0), (Z.land (state b) (2 ^ 3) =? 0); reflexivity.
Qed.

Lemma land_low_bit_mod (m k : Z) :
  0 <= k < 4 -> Z.land (m mod 16) (2 ^ k) = Z.land m (2 ^ k).
Proof.
  intros Hk. apply Z.bits_inj'. intros j Hj.
  rewrite !Z.land_spec, (Z.pow2_bits_eqb k j) by lia.
  destruct (Z.eqb_spec k j) as [<- | _]; [|rewrite !andb_false_r; reflexivity].
  change 16 with (2 ^ 4). rewrite Z.mod_pow2_bits_low by lia. reflexivity.
Qed.

Lemma rendering_mod (m : Z) : rendering (m mod 16) = rendering m.
Proof.
  unfold rendering. rewrite !land_low_bit_mod by lia. reflexivity.
Qed.

Lemma rendering_injective (m1 m2 : Z) :
  in_range m1 -> in_range m2 -> rendering m1 = rendering m2 -> m1 = m2.
Proof.
  intros H1 H2 Heq.
  assert (forallb (fun a => forallb (fun c =>
            implb (String.eqb (rendering a) (rendering c)) (a =? c))
            [0; 1; 2; 3; 4; 5; 6; 7; 8; 9; 10; 11; 12; 13; 14; 15])
            [0; 1; 2; 3; 4; 5; 6; 7; 8; 9; 10; 11; 12; 13; 14; 15] = true) as Hall
    by (vm_compute; reflexivity).
  rewrite forallb_forall in Hall.
  specialize (Hall m1 (in_range_cases m1 H1)).
  rewrite forallb_forall in Hall.
  specialize (Hall m2 (in_range_cases m2 H2)).
  rewrite Heq, String.eqb_refl in Hall. simpl in Hall.
  apply Z.eqb_eq. exact Hall.
Qed.

(** X6: [__str__] touches nothing and names each channel with the reading
    that a [Relay] on that channel gives: it returns
    "Relay 1 is R1, 2 is R2, 3 is R3, 4 is R4" where Rc is what
    [Relay(board, c).get_state()] returns. *)
Theorem str_agrees_with_relay_readings (w : World) (self : loc) (b : RelayBoard) :
  heap w !! self = Some b ->
  exists r1 r2 r3 r4 : string,
    fst (Relay.get_state {| relays := self; id := 1 |} w) = Return r1 /\
    fst (Relay.get_state {| relays := self; id := 2 |} w) = Return r2 /\
    fst (Relay.get_state {| relays := self; id := 3 |} w) = Return r3 /\
    fst (Relay.get_state {| relays := self; id := 4 |} w) = Return r4 /\
    RelayBoard.__str__ self w =
      (Return (String.concat ""
                 ["Relay 1 is "; r1; ", 2 is "; r2; ", 3 is "; r3; ", 4 is "; r4]%string),
       w).
Proof.
  intros Hb.
  exists (reading (state b) 1), (reading (state b) 2),
    (reading (state b) 3), (reading (state b) 4).
  rewrite (relay_get_state_eq w {| relays := self; id := 1 |} b Hb),
    (relay_get_state_eq w {| relays := self; id := 2 |} b Hb),
    (relay_get_state_eq w {| relays := self; id := 3 |} b Hb),
    (relay_get_state_eq w {| relays := self; id := 4 |} b Hb), (str_eq _ _ _ Hb).
  repeat (split; [reflexivity|]). f_equal. f_equal.
  unfold rendering, reading. cbn [id].
  change (1 - 1) with 0. change (2 - 1) with 1. change (3 - 1) with 2.
  change (4 - 1) with 3.
  destruct (Z.land (state b) (2 ^ 0) =? 0), (Z.land (state b) (2 ^ 1) =? 0),
    (Z.land (state b) (2 ^ 2) =? 0), (Z.land (state b) (2 ^ 3) =? 0); reflexivity.
Qed.

Lemma str_agrees_with_relay_readings_witness :
  RelayBoard.__str__ 0%nat (one_board 5 always_ok sound_sleep) =
    (Return "Relay 1 is On, 2 is Off, 3 is On, 4 is Off"%string,
     one_board 5 always_ok sound_sleep).
Proof.
  destruct (str_agrees_with_relay_readings _ 0%nat _
              (one_board_lookup 5 always_ok sound_sleep))
    as (r1 & r2 & r3 & r4 & H1 & H2 & H3 & H4 & H).
  injection H1 as <-. injection H2 as <-. injection H3 as <-. injection H4 as <-.
  exact H.
Defined.

(** X7: [__str__] shows the low four bits of the stored mask and nothing
    else: two boards print the same text exactly when their masks agree
    modulo 16.  So on masks in 0..15 the text determines the mask, and a mask
    of 16 prints as all Off. *)
Theorem str_shows_low_four_bits (w1 w2 : World) (self1 self2 : loc)
    (b1 b2 : RelayBoard) :
  heap w1 !! self1 = Some b1 ->
  heap w2 !! self2 = Some b2 ->
  fst (RelayBoard.__str__ self1 w1) = fst (RelayBoard.__str__ self2 w2) <->
  state b1 mod 16 = state b2 mod 16.
Proof.
  intros Hb1 Hb2. rewrite (str_eq _ _ _ Hb1), (str_eq _ _ _ Hb2). simpl fst.
  split.
  - intros H.
    assert (rendering (state b1) = rendering (state b2)) as H' by congruence.
    clear H. rename H' into H.
    rewrite <- (rendering_mod (state b1)), <- (rendering_mod (state b2)) in H.
    apply rendering_injective; [| |exact H]; unfold in_range.
    + pose proof (Z.mod_pos_bound (state b1) 16 ltac:(lia)). lia.
    + pose proof (Z.mod_pos_bound (state b2) 16 ltac:(lia)). lia.
  - intros H.
    rewrite <- (rendering_mod (state b1)), <- (rendering_mod (state b2)), H.
    reflexivity.
Qed.

Lemma str_shows_low_four_bits_witness :
  fst (RelayBoard.__str__ 0%nat (one_board 16 always_ok sound_sleep)) =
  fst (RelayBoard.__str__ 0%nat (one_board 0 always_ok sound_sleep)).
Proof.
  refine (proj2 (str_shows_low_four_bits _ _ 0%nat 0%nat _ _
                   (one_board_lookup 16 always_ok sound_sleep)
                   (one_board_lookup 0 always_ok sound_sleep)) _).
  reflexivity.
Defined.

(** ** Relay handles *)

Lemma reading_bit (s c : Z) :
  1 <= c ->
  reading s c = (if Z.testbit s (c - 1) then "On" else "Off")%string.
Proof.
  intros Hc. assert (0 <= c - 1) as Hk by lia. unfold reading.
  destruct (Z.testbit s (c - 1)) eqn:Hbit.
  - destruct (Z.eqb_spec (Z.land s (2 ^ (c - 1))) 0) as [H0 | _]; [|reflexivity].
    apply (f_equal (fun z => Z.testbit z (c - 1))) in H0.
    rewrite Z.land_spec, Hbit, (Z.pow2_bits_eqb _ _ Hk), Z.eqb_refl, Z.bits_0 in H0.
    discriminate.
  - replace (Z.land s (2 ^ (c - 1))) with 0; [reflexivity|].
    symmetry. apply Z.bits_inj'. intros j Hj.
    rewrite Z.land_spec, (Z.pow2_bits_eqb _ _ Hk), Z.bits_0.
    destruct (Z.eqb_spec (c - 1) j) as [<- | _];
      [rewrite Hbit; reflexivity | apply andb_false_r].
Qed.

Lemma relay_reading (w : World) (r : Relay) (b : RelayBoard) :
  heap w !! relays r = Some b ->
  fst (Relay.get_state r w) = Return (reading (state b) (id r)).
Proof. exact (relay_get_state_eq w r b). Qed.

Lemma relay_new_eq (w : World) (relay : loc) (b : RelayBoard) (c : Z) (on : bool) :
  heap w !! relay = Some b ->
  Relay.new relay c on w =
  if py_in c (allowed_ids b)
  then if on
       then (Relay.on {| relays := relay; id := c |} ;;
             ret {| relays := relay; id := c |}) w
       else (Return {| relays := relay; id := c |}, w)
  else (Raise (IdNotAllowed (allowed_ids b)), w).
Proof.
  intros Hb. unfold Relay.new, bind at 1, getattr. rewrite Hb.
  destruct (py_in c (allowed_ids b)); [|reflexivity].
  destruct on; reflexivity.
Qed.

(** X8: [Relay(board, id, initially_on)].  An id outside 1..4 raises the id
    exception and nothing else happens.  With a valid id and
    [initially_on=False] the handle is returned and nothing is written.  With
    [initially_on=True] exactly one write is requested, the one of
    [turn_on(id)]; the handle is returned if it goes through, the bus
    exception is raised if not, and the channel reads On either way. *)
Theorem relay_new_cases (w : World) (relay : loc) (b : RelayBoard) (c : Z) :
  heap w !! relay = Some b ->
  wf_board b ->
  let r := {| relays := relay; id := c |} in
  let on_mask := Z.lor (state b) (2 ^ (c - 1)) in
  (~ (1 <= c <= 4) -> forall on,
   Relay.new relay c on w = (Raise (IdNotAllowed ALLOWED_IDS), w)) /\
  (1 <= c <= 4 -> Relay.new relay c false w = (Return r, w)) /\
  (1 <= c <= 4 ->
   fst (Relay.new relay c true w) =
     (if bus_ok w (length (bus_log w)) (relay_write on_mask)
      then Return r else Raise (BusError (relay_write on_mask))) /\
   bus_log (after (Relay.new relay c true) w) = bus_log w ++ [relay_write on_mask] /\
   fst (Relay.get_state r (after (Relay.new relay c true) w)) = Return "On"%string).
Proof.
  intros Hb Hwf r on_mask. pose proof Hwf as (Ha & Hr & Hal).
  split; [|split].
  - intros Hc on. rewrite (relay_new_eq _ _ _ _ _ Hb), Hal, (py_in_not_allowed _ Hc).
    reflexivity.
  - intros Hc. rewrite (relay_new_eq _ _ _ _ _ Hb), Hal, (proj2 (py_in_allowed c) Hc).
    reflexivity.
  - intros Hc. assert (0 <= c - 1) as Hk by lia. unfold after.
    rewrite (relay_new_eq _ _ _ _ _ Hb), Hal, (proj2 (py_in_allowed c) Hc).
    unfold bind, Relay.on. cbn [relays id].
    rewrite (turn_on_valid _ _ _ _ Hb Hwf Hc). fold on_mask.
    pose proof (written_lookup _ _ _ on_mask Hb) as Hb'.
    assert (fst (Relay.get_state r (written w relay b on_mask)) = Return "On"%string)
      as Hon.
    { rewrite (relay_get_state_eq _ r _ Hb'). cbn [state with_state id r].
      subst on_mask. rewrite (bit_set_after_lor _ _ Hk). reflexivity. }
    assert (bus_log (written w relay b on_mask) = bus_log w ++ [relay_write on_mask])
      as Hlog.
    { unfold written. simpl. rewrite (write_of_wf _ _ Hwf). reflexivity. }
    unfold write_outcome.
    destruct (bus_ok w (length (bus_log w)) (relay_write on_mask));
      cbn [fst snd ret]; repeat split; assumption.
Qed.

Lemma relay_new_cases_witness :
  Relay.new 0%nat 5 true (one_board 0 always_ok sound_sleep) =
    (Raise (IdNotAllowed ALLOWED_IDS), one_board 0 always_ok sound_sleep) /\
  fst (Relay.get_state {| relays := 0%nat; id := 2 |}
         (after (Relay.new 0%nat 2 true) (one_board 0 never_ok sound_sleep))) =
    Return "On"%string.
Proof.
  split.
  - refine (proj1 (relay_new_cases _ 0%nat _ 5
                     (one_board_lookup 0 always_ok sound_sleep)
                     (conj eq_refl (conj eq_refl eq_refl))) _ true).
    lia.
  - refine (proj2 (proj2 (proj2 (proj2 (relay_new_cases _ 0%nat _ 2
                     (one_board_lookup 0 never_ok sound_sleep)
                     (conj eq_refl (conj eq_refl eq_refl)))) _))).
    lia.
Defined.

(** X9: a handle that [Relay(...)] returned carries the board it was given
    and an id in 1..4, so [on()], [off()] and [toggle()] on it never raise
    the id exception: the only exception that can leave them is the one of
    the bus. *)
Theorem relay_handle_is_valid (w : World) (relay : loc) (b : RelayBoard) (c : Z)
    (on : bool) (r : Relay) :
  heap w !! relay = Some b ->
  wf_board b ->
  fst (Relay.new relay c on w) = Return r ->
  relays r = relay /\ 1 <= id r <= 4 /\
  (forall w2 b2 f e,
     heap w2 !! relay = Some b2 -> wf_board b2 ->
     In f [Relay.on; Relay.off; Relay.toggle] ->
     fst (f r w2) = Raise e -> exists t, e = BusError t).
Proof.
  intros Hb Hwf Hnew. pose proof Hwf as (Ha & Hr & Hal).
  rewrite (relay_new_eq _ _ _ _ _ Hb), Hal in Hnew.
  destruct (py_in c ALLOWED_IDS) eqn:Hin; [|discriminate].
  apply py_in_allowed in Hin.
  assert (r = {| relays := relay; id := c |}) as ->.
  { destruct on; [|cbn in Hnew; congruence].
    unfold bind in Hnew.
    destruct (Relay.on _ w) as [[[] | e |] w1]; cbn in Hnew; congruence. }
  cbn [relays id]. split; [reflexivity|]. split; [exact Hin|].
  intros w2 b2 f e Hb2 Hwf2 Hf He.
  assert (exists m, fst (f {| relays := relay; id := c |} w2) =
                    write_outcome w2 (relay_write m)) as [m Hm].
  { destruct Hf as [<- | [<- | [<- | []]]];
      unfold Relay.on, Relay.off, Relay.toggle; cbn [relays id].
    - rewrite (turn_on_valid _ _ _ _ Hb2 Hwf2 Hin). eexists. reflexivity.
    - rewrite (turn_off_valid _ _ _ _ Hb2 Hwf2 Hin). eexists. reflexivity.
    - rewrite (switch_valid _ _ _ _ Hb2 Hwf2 Hin). eexists. reflexivity. }
  rewrite Hm in He. unfold write_outcome in He.
  destruct (bus_ok w2 _ _); [discriminate|]. injection He as <-. eexists. reflexivity.
Qed.

Lemma relay_handle_is_valid_witness :
  relays {| relays := 0%nat; id := 4 |} = 0%nat /\
  1 <= id {| relays := 0%nat; id := 4 |} <= 4.
Proof.
  destruct (relay_handle_is_valid (one_board 0 always_ok sound_sleep) 0%nat _ 4 false
              {| relays := 0%nat; id := 4 |}
              (one_board_lookup 0 always_ok sound_sleep)
              (conj eq_refl (conj eq_refl eq_refl)) eq_refl) as (H1 & H2 & _).
  split; [exact H1 | exact H2].
Defined.

Lemma relay_op_valid (f : Relay -> Py unit) :
  In f [Relay.on; Relay.off; Relay.toggle] ->
  exists g, In g [RelayBoard.turn_on; RelayBoard.turn_off; RelayBoard.switch] /\
            forall r, f r = g (relays r) (id r).
Proof.
  intros [<- | [<- | [<- | []]]]; eexists; (split; [|intros r; reflexivity]).
  - left. reflexivity.
  - right. left. reflexivity.
  - right. right. left. reflexivity.
Qed.

(** X10: what a relay reads after an operation on it, whether or not the
    write went through: On after [on()], Off after [off()], and after
    [toggle()] the opposite of what it read before. *)
Theorem relay_reads_what_it_did (w : World) (r : Relay) (b : RelayBoard) :
  heap w !! relays r = Some b ->
  wf_board b ->
  1 <= id r <= 4 ->
  fst (Relay.get_state r (after (Relay.on r) w)) = Return "On"%string /\
  fst (Relay.get_state r (after (Relay.off r) w)) = Return "Off"%string /\
  (fst (Relay.get_state r w) = Return "On"%string ->
   fst (Relay.get_state r (after (Relay.toggle r) w)) = Return "Off"%string) /\
  (fst (Relay.get_state r w) = Return "Off"%string ->
   fst (Relay.get_state r (after (Relay.toggle r) w)) = Return "On"%string).
Proof.
  intros Hb Hwf Hc. assert (0 <= id r - 1) as Hk by lia.
  assert (1 <= id r) as Hc1 by lia.
  unfold after, Relay.on, Relay.off, Relay.toggle.
  rewrite (turn_on_valid _ _ _ _ Hb Hwf Hc), (turn_off_valid _ _ _ _ Hb Hwf Hc),
    (switch_valid _ _ _ _ Hb Hwf Hc). cbn [snd].
  rewrite !(relay_reading _ r _ (written_lookup _ _ _ _ Hb)), (relay_reading _ r _ Hb).
  cbn [state with_state]. rewrite !(reading_bit _ _ Hc1).
  rewrite (lor_bit_sets _ _ Hk), (land_lnot_bit_clears _ _ Hk), (lxor_bit_flips _ _ Hk).
  repeat split; destruct (Z.testbit (state b) (id r - 1)); cbn; congruence.
Qed.

Lemma relay_reads_what_it_did_witness :
  let r := {| relays := 0%nat; id := 3 |} in
  fst (Relay.get_state r (after (Relay.on r) (one_board 0 never_ok sound_sleep))) =
    Return "On"%string.
Proof.
  refine (proj1 (relay_reads_what_it_did (one_board 0 never_ok sound_sleep)
                   {| relays := 0%nat; id := 3 |} _
                   (one_board_lookup 0 never_ok sound_sleep)
                   (conj eq_refl (conj eq_refl eq_refl)) _)).
  simpl. lia.
Defined.

(** X11: relays on one board share its mask and nothing more.  Two handles
    with the same id are aliases: what one switches, the other reads.  A
    handle with another id reads the same before and after any [on()],
    [off()] or [toggle()] of the first. *)
Theorem relays_share_their_board (w : World) (r1 r2 : Relay) (b : RelayBoard) :
  heap w !! relays r1 = Some b ->
  wf_board b ->
  relays r2 = relays r1 ->
  1 <= id r1 <= 4 ->
  1 <= id r2 <= 4 ->
  (id r2 = id r1 ->
   fst (Relay.get_state r2 (after (Relay.on r1) w)) = Return "On"%string /\
   fst (Relay.get_state r2 (after (Relay.off r1) w)) = Return "Off"%string) /\
  (id r2 <> id r1 ->
   forall f, In f [Relay.on; Relay.off; Relay.toggle] ->
   fst (Relay.get_state r2 (after (f r1) w)) = fst (Relay.get_state r2 w)).
Proof.
  intros Hb Hwf Hsame Hc1 Hc2.
  assert (heap w !! relays r2 = Some b) as Hb2 by (rewrite Hsame; exact Hb).
  assert (1 <= id r2) as Hc2' by lia.
  split.
  - intros Hid. assert (0 <= id r1 - 1) as Hk by lia.
    unfold after, Relay.on, Relay.off.
    rewrite (turn_on_valid _ _ _ _ Hb Hwf Hc1), (turn_off_valid _ _ _ _ Hb Hwf Hc1).
    cbn [snd].
    assert (forall m, heap (written w (relays r1) b m) !! relays r2 =
                      Some (with_state m b)) as Hw.
    { intros m. rewrite Hsame. exact (written_lookup _ _ _ m Hb). }
    rewrite !(relay_reading _ r2 _ (Hw _)). cbn [state with_state].
    rewrite !(reading_bit _ _ Hc2'), Hid.
    rewrite (lor_bit_sets _ _ Hk), (land_lnot_bit_clears _ _ Hk). split; reflexivity.
  - intros Hid f Hf.
    destruct (relay_op_valid f Hf) as (g & Hg & Hfg).
    destruct (channel_op_valid g Hg) as (gm & Hgv & Hgframe & _).
    unfold after. rewrite Hfg, (Hgv _ _ _ _ Hb Hwf Hc1). cbn [snd].
    assert (heap (written w (relays r1) b (gm (state b) (id r1))) !! relays r2 =
            Some (with_state (gm (state b) (id r1)) b)) as Hw.
    { rewrite Hsame. exact (written_lookup _ _ _ _ Hb). }
    rewrite (relay_reading _ r2 _ Hw), (relay_reading _ r2 _ Hb2).
    cbn [state with_state]. rewrite !(reading_bit _ _ Hc2').
    rewrite (Hgframe _ _ Hc1 (id r2 - 1)) by lia. reflexivity.
Qed.

Lemma relays_share_their_board_witness :
  let r1 := {| relays := 0%nat; id := 2 |} in
  let r2 := {| relays := 0%nat; id := 2 |} in
  fst (Relay.get_state r2 (after (Relay.on r1) (one_board 0 always_ok sound_sleep))) =
    Return "On"%string.
Proof.
  refine (proj1 (proj1 (relays_share_their_board (one_board 0 always_ok sound_sleep)
                   {| relays := 0%nat; id := 2 |} {| relays := 0%nat; id := 2 |} _
                   (one_board_lookup 0 always_ok sound_sleep)
                   (conj eq_refl (conj eq_refl eq_refl)) eq_refl _ _) eq_refl)).
  - simpl. lia.
  - simpl. lia.
Defined.

(** ** Teardown *)

Lemma kill_reliable (w : World) (self : loc) (b : RelayBoard) :
  heap w !! self = Some b ->
  wf_board b ->
  reliable_bus w ->
  fst (RelayBoard.kill self w) = Return tt /\
  bus_log (after (RelayBoard.kill self) w) =
    bus_log w ++ map relay_write (kill_masks (state b) [1; 2; 3; 4]) /\
  mask_of (after (RelayBoard.kill self) w) self =
    Return (nth 3 (kill_masks (state b) [1; 2; 3; 4]) 0).
Proof.
  intros Hb Hwf Hbus. unfold after. rewrite (kill_eq _ _ _ Hb).
  pose proof Hwf as (_ & _ & Hal). rewrite Hal.
  exact (for_each_turn_off_all_ok self ALLOWED_IDS w b Hb Hwf allowed_ids_valid
           (fun i _ => Hbus _ _)).
Qed.

Lemma del_eq (w : World) (self : loc) (b : RelayBoard) :
  heap w !! self = Some b ->
  RelayBoard.__del__ self w =
  if persistent b then (Return tt, w) else RelayBoard.kill self w.
Proof.
  intros Hb. unfold RelayBoard.__del__, bind, getattr at 1. rewrite Hb.
  destruct (persistent b); reflexivity.
Qed.

(** X12: leaving a board.  [__exit__] does what [__del__] does.  On a
    persistent board they return at once: nothing is written and the relays
    stay as they are.  On a board that is not persistent they run [kill()]:
    on a bus whose writes succeed that is four writes, after which a mask
    that was in 0..15 is 0. *)
Theorem teardown (w : World) (self : loc) (b : RelayBoard) :
  heap w !! self = Some b ->
  wf_board b ->
  RelayBoard.__exit__ self w = RelayBoard.__del__ self w /\
  (persistent b = true -> RelayBoard.__del__ self w = (Return tt, w)) /\
  (persistent b = false ->
   RelayBoard.__del__ self w = RelayBoard.kill self w /\
   (reliable_bus w -> in_range (state b) ->
    fst (RelayBoard.__del__ self w) = Return tt /\
    length (bus_log (after (RelayBoard.__del__ self) w)) = (length (bus_log w) + 4)%nat /\
    mask_of (after (RelayBoard.__del__ self) w) self = Return 0)).
Proof.
  intros Hb Hwf. split; [reflexivity|]. rewrite (del_eq _ _ _ Hb).
  split; intros Hp; rewrite Hp; [reflexivity|]. split; [reflexivity|].
  intros Hbus Hs. unfold after. rewrite (del_eq _ _ _ Hb), Hp.
  destruct (kill_reliable _ _ _ Hb Hwf Hbus) as (Hr & Hlog & Hmask).
  unfold after in *. split; [exact Hr|]. split.
  - rewrite Hlog, length_app. reflexivity.
  - rewrite Hmask. f_equal. exact (kill_masks_end_all_off _ Hs).
Qed.

Lemma teardown_witness :
  RelayBoard.__del__ 0%nat (one_board 9 always_ok sound_sleep) =
    (Return tt, one_board 9 always_ok sound_sleep).
Proof.
  refine (proj1 (proj2 (teardown _ 0%nat _
                   (one_board_lookup 9 always_ok sound_sleep)
                   (conj eq_refl (conj eq_refl eq_refl)))) eq_refl).
Defined.

(** ** [cycle] with a negative duration *)



(** ** Invariants of call sequences *)

Section Keeps.

Variable P : World -> Prop.

Lemma keeps_ret {A : Type} (a : A) : keeps P (ret a).
Proof. intros w H. exact H. Qed.

Lemma keeps_raise {A : Type} (e : exn) : keeps P (@raise A e).
Proof. intros w H. exact H. Qed.

Lemma keeps_getattr {A : Type} (self : loc) (field : RelayBoard -> A) :
  keeps P (getattr self field).
Proof. intros w H. unfold after, getattr. destruct (heap w !! self); exact H. Qed.

Lemma keeps_bind {A B : Type} (m : Py A) (k : A -> Py B) :
  keeps P m -> (forall a, keeps P (k a)) -> keeps P (bind m k).
Proof.
  intros Hm Hk w H. specialize (Hm w H). unfold after, bind in *.
  destruct (m w) as [[a | e |] w1]; simpl in Hm; [|exact Hm|exact Hm].
  exact (Hk a w1 Hm).
Qed.

Lemma keeps_for_each {A : Type} (xs : list A) (body : A -> Py unit) :
  (forall x, keeps P (body x)) -> keeps P (for_each xs body).
Proof.
  intros Hbody. induction xs as [|x xs IH]; simpl.
  - apply keeps_ret.
  - apply keeps_bind; [apply Hbody | intros _; exact IH].
Qed.

Hypothesis keeps_set_state : forall self m, keeps P (RelayBoard.set_state self m).
Hypothesis keeps_time_sleep : forall secs, keeps P (time_sleep secs).

Lemma keeps_switch (self : loc) (c : Z) : keeps P (RelayBoard.switch self c).
Proof.
  apply keeps_bind; [apply keeps_getattr|]. intros allowed.
  destruct (negb _); [apply keeps_raise|].
  apply keeps_bind; [apply keeps_getattr|]. intros s. apply keeps_set_state.
Qed.

Lemma keeps_turn_on (self : loc) (c : Z) : keeps P (RelayBoard.turn_on self c).
Proof.
  apply keeps_bind; [apply keeps_getattr|]. intros allowed.
  destruct (negb _); [apply keeps_raise|].
  apply keeps_bind; [apply keeps_getattr|]. intros s. apply keeps_set_state.
Qed.

Lemma keeps_turn_off (self : loc) (c : Z) : keeps P (RelayBoard.turn_off self c).
Proof.
  apply keeps_bind; [apply keeps_getattr|]. intros allowed.
  destruct (negb _); [apply keeps_raise|].
  apply keeps_bind; [apply keeps_getattr|]. intros s. apply keeps_set_state.
Qed.

Lemma keeps_kill (self : loc) : keeps P (RelayBoard.kill self).
Proof.
  apply keeps_bind; [apply keeps_getattr|].
  intros allowed. apply keeps_for_each. intros c. apply keeps_turn_off.
Qed.

Lemma keeps_del (self : loc) : keeps P (RelayBoard.__del__ self).
Proof.
  apply keeps_bind; [apply keeps_getattr|].
  intros p. destruct p; simpl; [apply keeps_ret | apply keeps_kill].
Qed.

Lemma keeps_relay_new (relay : loc) (c : Z) (on : bool) :
  keeps P (Relay.new relay c on).
Proof.
  apply keeps_bind; [apply keeps_getattr|]. intros allowed.
  destruct (negb _); [apply keeps_raise|].
  destruct on; [|apply keeps_ret].
  apply keeps_bind; [apply keeps_turn_on | intros _; apply keeps_ret].
Qed.

Lemma keeps_cycle (r : Relay) (d : float) : keeps P (Relay.cycle r d).
Proof.
  apply keeps_bind; [apply keeps_turn_on|]. intros _.
  apply keeps_bind; [apply keeps_time_sleep|]. intros _. apply keeps_turn_off.
Qed.

Lemma keeps_run_op_no_constructor (o : op) :
  no_constructor o -> forall w, P w -> P (run_op o w).
Proof.
  intros Ho. destruct o; simpl in *.
  - contradiction.
  - apply keeps_set_state.
  - apply keeps_switch.
  - apply keeps_turn_on.
  - apply keeps_turn_off.
  - apply keeps_getattr.
  - apply keeps_kill.
  - apply keeps_del.
  - apply (keeps_ret self).
  - apply keeps_del.
  - apply keeps_relay_new.
  - apply keeps_turn_on.
  - apply keeps_turn_off.
  - apply keeps_cycle.
  - apply keeps_switch.
  - apply keeps_bind; [apply keeps_getattr | intros s; apply keeps_ret].
Qed.

Hypothesis keeps_alloc : forall b, wf_board b -> keeps P (alloc b).

Lemma keeps_new (m : Z) (p : bool) : keeps P (RelayBoard.new m p).
Proof.
  apply keeps_bind.
  - apply keeps_alloc. repeat split.
  - intros self. apply keeps_bind; [apply keeps_set_state|].
    intros _. apply keeps_ret.
Qed.

Lemma keeps_run_op (o : op) : forall w, P w -> P (run_op o w).
Proof.
  destruct o; try (apply keeps_run_op_no_constructor; exact I).
  apply keeps_new.
Qed.

Lemma keeps_run_ops (ops : list op) : forall w, P w -> P (run_ops ops w).
Proof.
  induction ops as [|o ops IH]; intros w H; [exact H|].
  simpl. apply IH. exact (keeps_run_op o w H).
Qed.

End Keeps.

Lemma set_state_cases (w : World) (self : loc) (m : Z) :
  (heap w !! self = None /\ after (RelayBoard.set_state self m) w = w) \/
  (exists b, heap w !! self = Some b /\
             after (RelayBoard.set_state self m) w = written w self b m).
Proof.
  unfold after. destruct (heap w !! self) as [b|] eqn:Hb.
  - right. exists b. rewrite (set_state_eq _ _ _ _ Hb). auto.
  - left. unfold RelayBoard.set_state, bind, setattr_state. rewrite Hb. auto.
Qed.

Lemma time_sleep_heap_bus (secs : float) (w : World) :
  heap (after (time_sleep secs) w) = heap w /\
  bus_log (after (time_sleep secs) w) = bus_log w /\
  bus_ok (after (time_sleep secs) w) = bus_ok w.
Proof.
  unfold after, time_sleep. destruct (_ || _)%bool; [auto|].
  destruct (sleep_raises w _ _); auto.
Qed.

(** X14: the module writes to one place only.  Whatever calls are made on
    boards and relays, with whatever arguments, and whatever the bus and the
    sleeps do, every transaction requested goes to device address 0x11,
    register 0x10. *)
Theorem every_write_targets_the_relay_register (ops : list op) (w : World) :
  boards_wf w ->
  bus_targets_relay_register w ->
  boards_wf (run_ops ops w) /\
  bus_targets_relay_register (run_ops ops w) /\
  (forall t, In t (bus_log (run_ops ops w)) -> t_addr t = 17 /\ t_reg t = 16).
Proof.
  intros Hwf Hbus.
  assert (boards_wf (run_ops ops w) /\ bus_targets_relay_register (run_ops ops w))
    as [H1 H2].
  { apply (keeps_run_ops (fun w => boards_wf w /\ bus_targets_relay_register w));
      [| | |split; assumption].
    - intros self m w0 [Hw Hb].
      destruct (set_state_cases w0 self m) as [[_ ->] | (b & Hlook & ->)];
        [split; assumption|].
      pose proof (Forall_lookup_1 _ _ _ _ Hw Hlook) as Hwfb.
      split.
      + unfold boards_wf, written. simpl. apply Forall_insert; [exact Hw|].
        exact (wf_with_state _ _ Hwfb).
      + unfold bus_targets_relay_register, written. simpl.
        apply Forall_app. split; [exact Hb|].
        rewrite (write_of_wf _ _ Hwfb). repeat constructor.
    - intros secs w0 [Hw Hb].
      destruct (time_sleep_heap_bus secs w0) as (Hh & Hl & _).
      unfold boards_wf, bus_targets_relay_register. rewrite Hh, Hl. split; assumption.
    - intros b Hb w0 [Hw Hl]. unfold after, alloc. simpl. split; [|exact Hl].
      unfold boards_wf. simpl. apply Forall_app. split; [exact Hw|].
      constructor; [exact Hb | constructor]. }
  split; [exact H1|]. split; [exact H2|].
  intros t Ht. apply list_elem_of_In in Ht.
  exact (proj1 (Forall_forall _ _) H2 t Ht).
Qed.

Lemma every_write_targets_the_relay_register_witness :
  let r := {| relays := 0%nat; id := 2 |} in
  let ops := [Op_RelayBoard 300 false; Op_set_state 0%nat (-7); Op_cycle r 0.25;
              Op_switch 0%nat 9; Op_kill 0%nat] in
  bus_targets_relay_register (run_ops ops (empty_world (fails_at 2) sound_sleep)).
Proof.
  refine (proj1 (proj2 (every_write_targets_the_relay_register _
                   (empty_world (fails_at 2) sound_sleep) _ _))).
  - constructor.
  - constructor.
Defined.

Lemma keeps_run_ops_no_constructor (P : World -> Prop) (ops : list op) :
  (forall self m, keeps P (RelayBoard.set_state self m)) ->
  (forall secs, keeps P (time_sleep secs)) ->
  Forall no_constructor ops ->
  forall w, P w -> P (run_ops ops w).
Proof.
  intros Hset Hsleep Hops.
  induction Hops as [|o ops Ho Hops IH]; intros w H; [exact H|].
  simpl. apply IH. exact (keeps_run_op_no_constructor P Hset Hsleep o Ho w H).
Qed.

Lemma new_on_empty_world (m : Z) (p : bool) (ok : nat -> Transaction -> bool)
    (nap : nat -> float -> option nat) :
  let w := after (RelayBoard.new m p) (empty_world ok nap) in
  heap w = [{| _relay_I2C_adress := RELAY_I2C_ADRESS;
               _relay_I2C_register := RELAY_REGISTER;
               allowed_ids := ALLOWED_IDS; persistent := p; state := m |}] /\
  bus_log w = [relay_write m].
Proof.
  unfold after, RelayBoard.new, bind, alloc. simpl.
  rewrite (set_state_eq _ 0%nat _ m) by reflexivity.
  destruct (write_outcome _ _); split; reflexivity.
Qed.

(** X15: with one board, the stored mask is always the value last sent.
    After [RelayBoard(m, p)] and any calls on that board and on relays of it
    that construct no further board, whatever the bus and the sleeps do,
    [get_state()] returns the value of the transaction requested last. *)
Theorem stored_mask_is_last_requested_write (m : Z) (p : bool) (ops : list op)
    (ok : nat -> Transaction -> bool) (nap : nat -> float -> option nat) :
  Forall no_constructor ops ->
  let w := run_ops (Op_RelayBoard m p :: ops) (empty_world ok nap) in
  mirrors_last_write w /\
  exists s, mask_of w 0%nat = Return s /\ last (bus_log w) = Some (relay_write s).
Proof.
  intros Hops w.
  assert (mirrors_last_write w) as Hw.
  { subst w. cbn [run_ops fold_left]. fold (run_ops ops).
    apply (keeps_run_ops_no_constructor mirrors_last_write); [| |exact Hops|].
    - intros self s w0 (b & Hheap & Hwf & Hlast).
      destruct (set_state_cases w0 self s) as [[_ ->] | (b' & Hlook & ->)];
        [exists b; auto|].
      rewrite Hheap in Hlook. destruct self as [|self]; [|destruct self; discriminate].
      injection Hlook as <-.
      exists (with_state s b). unfold written. cbn [heap bus_log with_bus_log with_heap].
      rewrite Hheap. split; [reflexivity|]. split; [exact (wf_with_state _ _ Hwf)|].
      rewrite last_snoc, (write_of_wf _ _ Hwf). reflexivity.
    - intros secs w0 (b & Hheap & Hwf & Hlast).
      destruct (time_sleep_heap_bus secs w0) as (Hh & Hl & _).
      exists b. rewrite Hh, Hl. auto.
    - destruct (new_on_empty_world m p ok nap) as [Hh Hl].
      eexists. unfold run_op. rewrite Hh, Hl. split; [reflexivity|].
      split; [repeat split | reflexivity]. }
  split; [exact Hw|]. destruct Hw as (b & Hheap & _ & Hlast).
  exists (state b). split; [|exact Hlast].
  apply mask_of_eq. rewrite Hheap. reflexivity.
Qed.

Lemma stored_mask_is_last_requested_write_witness :
  let r := {| relays := 0%nat; id := 4 |} in
  let w := run_ops [Op_RelayBoard 3 false; Op_toggle r; Op_cycle r 1; Op_kill 0%nat]
             (empty_world (fails_at 4) interrupted_sleep) in
  exists s, mask_of w 0%nat = Return s /\ last (bus_log w) = Some (relay_write s).
Proof.
  refine (proj2 (stored_mask_is_last_requested_write 3 false
                   [Op_toggle {| relays := 0%nat; id := 4 |};
                    Op_cycle {| relays := 0%nat; id := 4 |} 1; Op_kill 0%nat]
                   (fails_at 4) interrupted_sleep _)).
  repeat constructor.
Defined.

(** ** The command line: [main] with [--relays] *)

Lemma toggle_loop (r : loc) (ids : list Z) :
  forall (w : World) (b : RelayBoard),
  heap w !! r = Some b ->
  wf_board b ->
  reliable_bus w ->
  Forall (fun c => 1 <= c <= 4) ids ->
  let loop := for_each ids (fun id' => rel <- Relay.new r id' false ;; Relay.toggle rel) in
  fst (loop w) = Return tt /\
  bus_log (after loop w) = bus_log w ++ map relay_write (switch_masks (state b) ids) /\
  mask_of (after loop w) r = Return (toggled ids (state b)).
Proof.
  induction ids as [|c ids IH]; intros w b Hb Hwf Hbus Hids loop; subst loop.
  - unfold after. simpl. rewrite app_nil_r, (mask_of_eq _ _ _ Hb). auto.
  - apply Forall_cons in Hids as [Hc Hids].
    pose proof Hwf as (_ & _ & Hal).
    pose proof (written_lookup _ _ _ (Z.lxor (state b) (2 ^ (c - 1))) Hb) as Hb'.
    destruct (IH _ _ Hb' (wf_with_state _ _ Hwf) (written_reliable _ _ _ _ Hbus) Hids)
      as (Hr & Hlog & Hmask).
    assert (for_each (c :: ids)
              (fun id' => rel <- Relay.new r id' false ;; Relay.toggle rel) w =
            for_each ids
              (fun id' => rel <- Relay.new r id' false ;; Relay.toggle rel)
              (written w r b (Z.lxor (state b) (2 ^ (c - 1))))) as Hstep.
    { cbn [for_each]. unfold bind at 1. unfold bind at 1.
      rewrite (relay_new_eq _ _ _ _ _ Hb), Hal, (proj2 (py_in_allowed c) Hc).
      unfold Relay.toggle. cbn [relays id].
      rewrite (switch_valid _ _ _ _ Hb Hwf Hc), (write_outcome_reliable _ _ Hbus).
      reflexivity. }
    unfold after in *. rewrite Hstep.
    split; [exact Hr|]. split.
    + rewrite Hlog. cbn [switch_masks map state with_state].
      unfold written at 1. cbn [bus_log with_bus_log with_heap].
      rewrite (write_of_wf _ _ Hwf), <- app_assoc. reflexivity.
    + rewrite Hmask. reflexivity.
Qed.

(** X16: [main] with [--relays ids].  On a bus whose writes succeed, for
    ids in 1..4 (the choices the parser admits), the run returns after one
    write of 0 and one write per id given, and the new board ends with the
    mask obtained from 0 by flipping the bit of each id in turn: what was
    switched on before the run plays no part, and an id given twice ends
    off. *)
Theorem main_relays_toggles_from_zero (ids : list Z) (w : World) :
  reliable_bus w ->
  Forall (fun c => 1 <= c <= 4) ids ->
  fst (main_relays ids w) = Return tt /\
  bus_log (after (main_relays ids) w) =
    bus_log w ++ map relay_write (0 :: switch_masks 0 ids) /\
  mask_of (after (main_relays ids) w) (length (heap w)) = Return (toggled ids 0).
Proof.
  intros Hbus Hids.
  set (b := {| _relay_I2C_adress := RELAY_I2C_ADRESS;
               _relay_I2C_register := RELAY_REGISTER;
               allowed_ids := ALLOWED_IDS; persistent := true; state := 0 |}).
  set (w0 := with_heap (heap w ++ [b]) w).
  assert (heap w0 !! length (heap w) = Some b) as Hb.
  { subst w0. simpl. apply list_lookup_middle. reflexivity. }
  assert (reliable_bus w0) as Hbus0 by exact Hbus.
  assert (main_relays ids w =
          for_each ids
            (fun id' => rel <- Relay.new (length (heap w)) id' false ;; Relay.toggle rel)
            (written w0 (length (heap w)) b 0)) as Hmain.
  { unfold main_relays, bind at 1. unfold RelayBoard.new, bind at 1, alloc.
    fold b. fold w0. unfold bind at 1. rewrite (set_state_eq _ _ _ 0 Hb).
    rewrite (write_outcome_reliable _ _ Hbus0). reflexivity. }
  pose proof (written_lookup _ _ _ 0 Hb) as Hb1.
  destruct (toggle_loop (length (heap w)) ids _ _ Hb1
              (wf_with_state 0 b (conj eq_refl (conj eq_refl eq_refl)))
              (written_reliable _ _ _ _ Hbus0) Hids) as (Hr & Hlog & Hmask).
  unfold after in *. rewrite Hmain. split; [exact Hr|]. split; [|exact Hmask].
  rewrite Hlog. cbn [map]. unfold written at 1. subst w0.
  cbn [bus_log with_bus_log with_heap state with_state].
  rewrite <- app_assoc. reflexivity.
Qed.

Lemma main_relays_toggles_from_zero_witness :
  mask_of (after (main_relays [1; 3; 1]) (one_board 15 always_ok sound_sleep)) 1%nat =
    Return 4.
Proof.
  refine (proj2 (proj2 (main_relays_toggles_from_zero [1; 3; 1]
                   (one_board 15 always_ok sound_sleep) _ _))).
  - intros n t. reflexivity.
  - repeat constructor; lia.
Defined.

(** ** The with-statement *)

Lemma call_run_op (o : op) (w : World) : after (call o) w = run_op o w.
Proof.
  destruct o; unfold after, call, run_op, after, bind, ret; try reflexivity;
    match goal with |- snd (let (_, _) := ?m in _) = _ =>
      destruct m as [[? | ? |] ?]; reflexivity end.
Qed.

Lemma block_runs_prefix (ops : list op) :
  forall w, exists n, after (block ops) w = run_ops (take n ops) w.
Proof.
  induction ops as [|o ops IH]; intros w.
  - exists O. reflexivity.
  - pose proof (call_run_op o w) as Ho. unfold after in Ho.
    unfold block, after in *. cbn [for_each]. unfold bind.
    destruct (call o w) as [[[] | e |] w1]; cbn [snd] in Ho; subst w1.
    + destruct (IH (run_op o w)) as [n Hn]. exists (S n). exact Hn.
    + exists 1%nat. reflexivity.
    + exists 1%nat. reflexivity.
Qed.

Lemma run_ops_in_range (ops : list op) :
  Forall mask_arg_in_range ops ->
  forall w, registers_in_range w -> registers_in_range (run_ops ops w).
Proof.
  intros Hops. induction Hops as [|o ops Ho Hops IH]; intros w Hw; [exact Hw|].
  simpl. apply IH. exact (preserves_run_op o Ho w Hw).
Qed.

(** A board that stays allocated and not persistent, on an unchanged bus. *)
Lemma run_ops_keep_board_and_bus (ops : list op) (w : World) (l : loc)
    (b : RelayBoard) :
  heap w !! l = Some b ->
  persistent b = false ->
  bus_ok (run_ops ops w) = bus_ok w /\
  exists b', heap (run_ops ops w) !! l = Some b' /\ persistent b' = false.
Proof.
  intros Hb Hp.
  apply (keeps_run_ops (fun w' => bus_ok w' = bus_ok w /\
           exists b', heap w' !! l = Some b' /\ persistent b' = false));
    [| | |split; [reflexivity | exists b; auto]].
  - intros self m w0 (Hok & b' & Hb' & Hp').
    destruct (set_state_cases w0 self m) as [[_ ->] | (b0 & Hlook & ->)];
      [split; [exact Hok | exists b'; auto]|].
    split; [exact Hok|]. unfold written. cbn [heap with_bus_log with_heap].
    destruct (Nat.eq_dec self l) as [-> | Hne].
    + exists (with_state m b0). split.
      * apply list_lookup_insert_eq. exact (lookup_lt_Some _ _ _ Hlook).
      * rewrite Hb' in Hlook. injection Hlook as <-. exact Hp'.
    + exists b'. split; [|exact Hp'].
      rewrite list_lookup_insert_ne by exact Hne. exact Hb'.
  - intros secs w0 (Hok & b' & Hb' & Hp').
    destruct (time_sleep_heap_bus secs w0) as (Hh & _ & Ho).
    rewrite Hh, Ho. split; [exact Hok | exists b'; auto].
  - intros b0 _ w0 (Hok & b' & Hb' & Hp'). unfold after, alloc. simpl.
    split; [exact Hok|]. exists b'. split; [|exact Hp'].
    apply lookup_app_l_Some. exact Hb'.
Qed.

(** X17: a with-block releases the relays however its body ends.  On a bus
    whose writes succeed, [with RelayBoard(m) as r: body], with m in 0..15
    and a body of calls whose raw masks are in 0..15, ends with the mask of
    the board at 0, also when the body raised (an interrupted [cycle], a
    wrong id); the body's outcome, value or exception, is the outcome of the
    whole statement. *)
Theorem with_block_releases (m : Z) (body : loc -> list op) (w : World) :
  reliable_bus w ->
  registers_in_range w ->
  in_range m ->
  (forall r, Forall mask_arg_in_range (body r)) ->
  let l := length (heap w) in
  let prog := with_as (RelayBoard.new m false) (fun r => block (body r)) in
  fst (block (body l) (after (RelayBoard.new m false) w)) <> Stuck ->
  fst (prog w) = fst (block (body l) (after (RelayBoard.new m false) w)) /\
  mask_of (after prog w) l = Return 0.
Proof.
  intros Hbus Hinv Hm Hbody l prog Hns. subst prog.
  set (b := {| _relay_I2C_adress := RELAY_I2C_ADRESS;
               _relay_I2C_register := RELAY_REGISTER;
               allowed_ids := ALLOWED_IDS; persistent := false; state := 0 |}).
  set (w0 := with_heap (heap w ++ [b]) w).
  assert (heap w0 !! l = Some b) as Hb0.
  { subst w0 l. simpl. apply list_lookup_middle. reflexivity. }
  assert (RelayBoard.new m false w = (Return l, written w0 l b m)) as Hnew.
  { unfold RelayBoard.new, bind at 1, alloc. fold b. fold w0. fold l.
    unfold bind. rewrite (set_state_eq _ _ _ m Hb0).
    rewrite (write_outcome_reliable w0 _ Hbus). reflexivity. }
  set (w1 := written w0 l b m) in *.
  assert (after (RelayBoard.new m false) w = w1) as Hafter
    by (unfold after; rewrite Hnew; reflexivity).
  rewrite Hafter in *.
  assert (registers_in_range w1) as Hinv1.
  { rewrite <- Hafter. exact (preserves_new m false Hm w Hinv). }
  pose proof (written_lookup _ _ _ m Hb0 : heap w1 !! l = Some (with_state m b)) as Hb1.
  destruct (block_runs_prefix (body l) w1) as [n Hn]. unfold after in Hn.
  destruct (run_ops_keep_board_and_bus (take n (body l)) w1 l _ Hb1 eq_refl)
    as (Hok2 & b2 & Hb2 & Hp2).
  pose proof (run_ops_in_range (take n (body l)) (Forall_take _ n _ (Hbody l)) w1 Hinv1)
    as Hinv2.
  rewrite <- Hn in Hok2, Hb2, Hinv2.
  assert (reliable_bus (snd (block (body l) w1))) as Hbus2.
  { intros k t. rewrite Hok2. exact (Hbus k t). }
  destruct (Forall_lookup_1 _ _ _ _ Hinv2 Hb2) as [Hwf2 Hs2].
  destruct (kill_reliable _ _ _ Hb2 Hwf2 Hbus2) as (Hkr & _ & Hkm).
  assert (RelayBoard.__exit__ l (snd (block (body l) w1)) =
          (Return tt, after (RelayBoard.kill l) (snd (block (body l) w1)))) as Hexit.
  { unfold RelayBoard.__exit__. rewrite (del_eq _ _ _ Hb2), Hp2.
    unfold after. rewrite <- Hkr. apply surjective_pairing. }
  assert (mask_of (after (RelayBoard.kill l) (snd (block (body l) w1))) l = Return 0)
    as Hzero.
  { rewrite Hkm. f_equal. exact (kill_masks_end_all_off _ Hs2). }
  assert (with_as (RelayBoard.new m false) (fun r => block (body r)) w =
          match block (body l) w1 with
          | (Return a, w') => (RelayBoard.__exit__ l ;; ret a) w'
          | (Raise e, w') => (RelayBoard.__exit__ l ;; raise e) w'
          | (Stuck, w') => (Stuck, w')
          end) as Hwith.
  { unfold with_as, bind at 1. rewrite Hnew. reflexivity. }
  unfold after at 1. rewrite Hwith. clear Hwith.
  destruct (block (body l) w1) as [[[] | e |] w2] eqn:Hblock; cbn [fst snd] in *.
  - unfold bind. rewrite Hexit. split; [reflexivity | exact Hzero].
  - unfold bind. rewrite Hexit. split; [reflexivity | exact Hzero].
  - contradiction.
Qed.

Lemma with_block_releases_witness :
  let body := fun r => [Op_turn_on r 2; Op_cycle {| relays := r; id := 1 |} 2;
                        Op_turn_on r 4] in
  let prog := with_as (RelayBoard.new 8 false) (fun r => block (body r)) in
  fst (prog (empty_world always_ok interrupted_sleep)) = Raise (SleepError 0) /\
  mask_of (after prog (empty_world always_ok interrupted_sleep)) 0%nat = Return 0.
Proof.
  refine (with_block_releases 8
            (fun r => [Op_turn_on r 2; Op_cycle {| relays := r; id := 1 |} 2;
                       Op_turn_on r 4])
            (empty_world always_ok interrupted_sleep) _ _ _ _ _).
  - intros n t. reflexivity.
  - constructor.
  - unfold in_range. lia.
  - intros r. repeat constructor.
  - vm_compute. discriminate.
Defined.

(** ** Several boards *)

Lemma keeps_on_board (P : World -> Prop) (self : loc) :
  (forall m, keeps P (RelayBoard.set_state self m)) ->
  (forall c, keeps P (RelayBoard.turn_on self c)) /\
  (forall c, keeps P (RelayBoard.turn_off self c)) /\
  (forall c, keeps P (RelayBoard.switch self c)) /\
  keeps P (RelayBoard.kill self) /\
  keeps P (RelayBoard.__del__ self).
Proof.
  intros Hset.
  assert (forall (f : Z -> Z -> Z) c,
            keeps P (allowed <- getattr self allowed_ids ;;
                     if negb (py_in c allowed) then raise (IdNotAllowed allowed)
                     else s <- getattr self state ;;
                          RelayBoard.set_state self (f s c))) as Hop.
  { intros f c. apply keeps_bind; [apply keeps_getattr|]. intros allowed.
    destruct (negb _); [apply keeps_raise|].
    apply keeps_bind; [apply keeps_getattr|]. intros s. apply Hset. }
  assert (forall c, keeps P (RelayBoard.turn_off self c)) as Hoff.
  { intros c. exact (Hop (fun s k => Z.land s (Z.lnot (2 ^ (k - 1)))) c). }
  assert (keeps P (RelayBoard.kill self)) as Hkill.
  { apply keeps_bind; [apply keeps_getattr|]. intros allowed.
    apply keeps_for_each. exact Hoff. }
  split; [|split; [|split; [|split]]].
  - intros c. exact (Hop (fun s k => Z.lor s (2 ^ (k - 1))) c).
  - exact Hoff.
  - intros c. exact (Hop (fun s k => Z.lxor s (2 ^ (k - 1))) c).
  - exact Hkill.
  - apply keeps_bind; [apply keeps_getattr|]. intros p.
    destruct p; simpl; [apply keeps_ret | exact Hkill].
Qed.

(** X18: board objects do not share their mask.  No call on one board,
    [set_state], [turn_on], [turn_off], [switch], [kill] or [__del__],
    changes what [get_state()] of another board returns. *)
Theorem boards_keep_separate_masks (w : World) (self other : loc) (b0 : RelayBoard) :
  self <> other ->
  heap w !! other = Some b0 ->
  (forall m, mask_of (after (RelayBoard.set_state self m) w) other = mask_of w other) /\
  (forall f c, In f [RelayBoard.turn_on; RelayBoard.turn_off; RelayBoard.switch] ->
     mask_of (after (f self c) w) other = mask_of w other) /\
  mask_of (after (RelayBoard.kill self) w) other = mask_of w other /\
  mask_of (after (RelayBoard.__del__ self) w) other = mask_of w other.
Proof.
  intros Hne Hother.
  assert (forall m, keeps (fun w' => heap w' !! other = Some b0)
                      (RelayBoard.set_state self m)) as Hset.
  { intros m w0 H0.
    destruct (set_state_cases w0 self m) as [[_ ->] | (b & _ & ->)]; [exact H0|].
    unfold written. cbn [heap with_bus_log with_heap].
    rewrite list_lookup_insert_ne by exact Hne. exact H0. }
  destruct (keeps_on_board _ self Hset) as (Hon & Hoff & Hsw & Hkill & Hdel).
  rewrite (mask_of_eq _ _ _ Hother).
  split; [|split; [|split]].
  - intros m. apply mask_of_eq. exact (Hset m w Hother).
  - intros f c [<- | [<- | [<- | []]]]; apply mask_of_eq.
    + exact (Hon c w Hother).
    + exact (Hoff c w Hother).
    + exact (Hsw c w Hother).
  - apply mask_of_eq. exact (Hkill w Hother).
  - apply mask_of_eq. exact (Hdel w Hother).
Qed.

Lemma boards_keep_separate_masks_witness :
  let w := run_ops [Op_RelayBoard 6 false; Op_RelayBoard 9 false]
             (empty_world always_ok sound_sleep) in
  mask_of (after (RelayBoard.kill 1%nat) w) 0%nat = mask_of w 0%nat.
Proof.
  refine (proj1 (proj2 (proj2 (boards_keep_separate_masks
            (run_ops [Op_RelayBoard 6 false; Op_RelayBoard 9 false]
               (empty_world always_ok sound_sleep)) 1%nat 0%nat
            {| _relay_I2C_adress := RELAY_I2C_ADRESS;
               _relay_I2C_register := RELAY_REGISTER;
               allowed_ids := ALLOWED_IDS; persistent := false; state := 6 |} _ _)))).
  - lia.
  - reflexivity.
Defined.
